(** * Lifecycle orchestration of Proxmox clusters and virtual machines

    Shallow embedding of [datacenter/proxmox/cluster.py] and
    [datacenter/proxmox/vm.py].  A Python method becomes a computation that
    reads the history of what already happened, may raise, and emits the
    events it performs ([print], [sleep], one request to the executor).
    The Slurm script [reservation_manager.py] follows, as functions of what
    the process it runs does.  *)

From Stdlib Require Import Ascii.
From stdpp Require Import gmap strings list pretty.

Open Scope string_scope.
Open Scope list_scope.

(** ** Values read from the configuration *)

(** [Union[str,int]], the type [VM.vm] is annotated with. *)
Inductive scalar :=
| SStr (s : string)
| SInt (z : Z).

#[global] Instance scalar_eq_dec : EqDecision scalar.
Proof. solve_decision. Defined.

(** What an f-string interpolates for a configuration value. *)
Definition format (v : scalar) : string :=
  match v with
  | SStr s => s
  | SInt z => pretty z
  end.

(** Python's [device != EmptyString]: an [int] never equals a [str]. *)
Definition differs_from_empty (v : scalar) : bool :=
  match v with
  | SStr s => negb (String.eqb s EmptyString)
  | SInt _ => true
  end.

(** What a Python call hands back: [None] when the body falls off its end. *)
Inductive pyvalue :=
| PyNone
| PyBool (b : bool).

Definition is_status (v : pyvalue) : Prop := exists b, v = PyBool b.

(** ** Command *)

(** Modelled from the spec: the class [datacenter.ansible.Command], an ordered
    sequence of instruction strings tagged with a label; [Command(label)]
    builds the empty one and [command += instruction] appends. *)
Record Command := mkCommand {
  label : string;
  instructions : list string
}.

#[global] Instance Command_eq_dec : EqDecision Command.
Proof. solve_decision. Defined.

Definition new_command (lbl : string) : Command := mkCommand lbl [].

Definition add (c : Command) (instruction : string) : Command :=
  mkCommand (label c) (instructions c ++ [instruction]).

Notation "c +=> i" := (add c i) (at level 50, left associativity).

(** ** Requests, events and the computation type *)

(** The three entry points of [Playbook] the facades call. *)
Inductive Request :=
| RunShell (target : scalar) (command : Command)
| RunScript (script : string) (target : scalar) (params : list (string * string))
| PingHosts (target : scalar).

#[global] Instance Request_eq_dec : EqDecision Request.
Proof. solve_decision. Defined.

Inductive Event :=
| EPrint (line : string)
| ESleep (duration : nat)
| ECall (request : Request) (ok : bool).

#[global] Instance Event_eq_dec : EqDecision Event.
Proof. solve_decision. Defined.

Inductive exn :=
| KeyError.

Inductive outcome (A : Type) :=
| Ok (a : A)
| Raise (e : exn).
Arguments Ok {A} a.
Arguments Raise {A} e.

(** A computation: from the events that happened before it, its outcome and
    the events it emitted itself, oldest first. *)
Definition M (A : Type) : Type := list Event -> outcome A * list Event.

Definition ret {A} (a : A) : M A := fun _ => (Ok a, []).

Definition raise {A} (e : exn) : M A := fun _ => (Raise e, []).

Definition bind {A B} (m : M A) (k : A -> M B) : M B :=
  fun h =>
    match m h with
    | (Ok a, e1) =>
        match k a (h ++ e1) with
        | (r, e2) => (r, e1 ++ e2)
        end
    | (Raise x, e1) => (Raise x, e1)
    end.

#[global] Instance M_ret : MRet M := @ret.
#[global] Instance M_bind : MBind M := fun A B k m => bind m k.

Definition emit (e : Event) : M unit := fun _ => (Ok tt, [e]).

Definition print (line : string) : M unit := emit (EPrint line).

Definition sleep (duration : nat) : M unit := emit (ESleep duration).

(** An [if] without [else]. *)
Definition when (b : bool) (m : M unit) : M unit :=
  if b then m else ret tt.

(** A dictionary subscript: a missing key raises. *)
Definition subscript {A} (o : option A) : M A :=
  match o with
  | Some a => ret a
  | None => raise KeyError
  end.

(** ** What a run left behind *)

Definition sleeps (evs : list Event) : list nat :=
  omap (fun e => match e with ESleep n => Some n | _ => None end) evs.

Definition calls (evs : list Event) : list (Request * bool) :=
  omap (fun e => match e with ECall r b => Some (r, b) | _ => None end) evs.

Definition requests (evs : list Event) : list Request := (calls evs).*1.

Definition failed_calls (evs : list Event) : list Request :=
  (filter (fun c => c.2 = false) (calls evs)).*1.

Definition digit_of (a : ascii) : option nat :=
  let n := nat_of_ascii a in
  if (48 <=? n)%nat && (n <=? 57)%nat then Some (n - 48)%nat else None.

(** The number [N] of a line that starts with [[step N]]. *)
Definition step_tag (line : string) : option nat :=
  if String.prefix "[step " line then
    match String.get 6 line, String.get 7 line with
    | Some d, Some "]"%char => digit_of d
    | _, _ => None
    end
  else None.

Definition numbered_lines (evs : list Event) : list (nat * string) :=
  omap (fun e => match e with
                 | EPrint l => n ← step_tag l; Some (n, l)
                 | _ => None
                 end) evs.

Definition numbered_steps (evs : list Event) : list nat := (numbered_lines evs).*1.

(** The requests that could be built, up to the first one that could not:
    a step whose configuration lookup raises sends nothing, and neither does
    any step after it. *)
Fixpoint buildable {A} (plan : list (option A)) : list A :=
  match plan with
  | Some a :: plan' => a :: buildable plan'
  | _ => []
  end.

(** Among the first [n] calls, one that failed is the last call of all, and
    the run returned failure. *)
Fixpoint gated (n : nat) (cs : list (Request * bool)) (r : outcome bool) : Prop :=
  match n, cs with
  | S n', (_, ok) :: cs' => if ok then gated n' cs' r else cs' = [] /\ r = Ok false
  | _, _ => True
  end.

(** ** Configuration *)

#[global] Instance scalar_countable : Countable scalar.
Proof.
  refine (inj_countable'
            (fun v => match v with SStr s => inl s | SInt z => inr z end)
            (fun x => match x with inl s => SStr s | inr z => SInt z end) _).
  intros []; reflexivity.
Defined.

(** The nested mapping [get_cluster_config()] returns, by the subscripts the
    facades take of it.  A section that is absent behaves as an empty one:
    the subscript raises in both cases. *)
Record Config := mkConfig {
  cluster_section : gmap string (gmap string string);  (* ['cluster'][name][key] *)
  vm_section : gmap string (gmap string scalar);       (* ['vm'][name][key] *)
  images_hostname : option string;                     (* ['images']['hostname'] *)
  images_paths : gmap scalar string                    (* ['images']['paths'][image] *)
}.

(** [script_http.split("/")[-1]] *)
Fixpoint last_segment (acc s : string) : string :=
  match s with
  | EmptyString => acc
  | String c s' =>
      if Ascii.eqb c "/" then last_segment EmptyString s'
      else last_segment (acc +:+ String c EmptyString) s'
  end.

(** ** Playbook *)

Module Playbook.

(** Modelled from the spec: the base class [datacenter.ansible.Playbook], of
    which only the calls are in the source; it keeps the two operating-mode
    flags for the lifetime of the instance, runs a command or a named
    procedure on a target and reports success or failure. *)
Record t := mk {
  dry_run : bool;
  verbose : bool
}.

Definition __init__ (dry_run verbose : bool) : t := mk dry_run verbose.

Section Gateway.

(** The outcome reported for a request, given the instance and everything
    that happened before. *)
Variable gateway : t -> list Event -> Request -> bool.

Definition call (self : t) (rq : Request) : M bool :=
  fun h => let ok := gateway self h rq in (Ok ok, [ECall rq ok]).

Definition run_shell (self : t) (target : scalar) (command : Command) : M bool :=
  call self (RunShell target command).

Definition run (self : t) (script : string) (target : scalar)
    (params : list (string * string)) : M bool :=
  call self (RunScript script target params).

Definition ping_hosts (self : t) (target : scalar) : M bool :=
  call self (PingHosts target).

End Gateway.

End Playbook.

(** ** cluster.py *)

Module Cluster.

Record t := mk {
  base : Playbook.t;
  cluster_name : string;
  cluster_config : Config
}.

Section Methods.

Variable gateway : Playbook.t -> list Event -> Request -> bool.
(** [get_cluster_config()] and [get_master_key()]. *)
Variable the_config : Config.
Variable master_key : string.
(** The text an f-string shows for the bound method [self.cluster], which
    some of the messages interpolate where the name was meant. *)
Variable bound_method : t -> string.

#[local] Abbreviation run_shell := (Playbook.run_shell gateway).
#[local] Abbreviation run := (Playbook.run gateway).
#[local] Abbreviation ping_hosts := (Playbook.ping_hosts gateway).

Definition __init__ (cluster_name : string) (dry_run verbose : option bool) : t :=
  mk (Playbook.__init__ (default false dry_run) (default false verbose))
     cluster_name the_config.

(** [cluster_config['cluster'][cluster_name][key]], [None] where Python
    raises [KeyError]. *)
Definition attribute (self : t) (key : string) : option string :=
  cluster_section (cluster_config self) !! cluster_name self ≫= (.!! key).

Definition cluster (self : t) (key : string) : M string :=
  subscript (attribute self key).

Definition ping (self : t) : M pyvalue :=
  ping_hosts (base self) (SStr (cluster_name self));;
  ret PyNone.

Definition run_shell_on_all (self : t) (command : Command) : M bool :=
  run_shell (base self) (SStr (cluster_name self)) command.

Definition run_script_on_all (self : t) (script_name : string)
    (params : list (string * string)) : M bool :=
  run (base self) script_name (SStr (cluster_name self)) params.

Definition run_shell_on_master_host (self : t) (command : Command) : M bool :=
  cluster_master_host ← cluster self "host";
  run_shell (base self) (SStr cluster_master_host) command.

Definition reset_command : Command :=
  new_command "reset nodes..."
    +=> "systemctl stop pve-cluster corosync"
    +=> "pmxcfs -l"
    +=> "rm -rf /etc/corosync/*"
    +=> "rm -rf /etc/pve/corosync.conf"
    +=> "killall pmxcfs"
    +=> "systemctl start pve-cluster"
    +=> "rm -rf /etc/pve/nodes/*".

Definition reset (self : t) : M bool :=
  print ("reset the cluster with name " +:+ bound_method self);;
  run_shell_on_all self reset_command.

Definition reboot (self : t) : M bool :=
  run_script_on_all self "reboot.yaml" [].

Definition create_cluster_command (self : t) : Command :=
  new_command "create cluster..."
    +=> ("pvecm create " +:+ cluster_name self +:+ " --votes 1").

Definition create_cluster (self : t) : M bool :=
  cluster_master_host ← cluster self "host";
  print ("create cluster into the host " +:+ cluster_master_host
         +:+ " for cluster " +:+ cluster_name self);;
  run_shell_on_master_host self (create_cluster_command self).

Definition create_nodes_params (ip_address : string) : list (string * string) :=
  [ ("ip_address", "'" +:+ ip_address +:+ "'");
    ("master_key", "'" +:+ master_key +:+ "'") ].

Definition create_nodes (self : t) : M bool :=
  print ("add nodes into the cluster " +:+ bound_method self +:+ "...");;
  ip_address ← cluster self "ip_address";
  run_script_on_all self "add_node.yaml" (create_nodes_params ip_address).

Definition script_http : string :=
  "https://raw.githubusercontent.com/lps-ufrj-br/datacenter/refs/heads/main/data/scripts/configure_node.py".

Definition configure_nodes_command : Command :=
  let script_name := last_segment EmptyString script_http in
  new_command "configure nodes..."
    +=> ("wget " +:+ script_http +:+ " && python3 " +:+ script_name).

Definition configure_nodes (self : t) : M bool :=
  ok ← run_shell_on_all self configure_nodes_command;
  when (negb ok) (print "it is not possible to configure nodes...");;
  if (ok : bool) then reboot self else ret false.

(** The requests the steps above send, by step. *)
Definition reset_request (self : t) : Request :=
  RunShell (SStr (cluster_name self)) reset_command.

Definition reboot_request (self : t) : Request :=
  RunScript "reboot.yaml" (SStr (cluster_name self)) [].

Definition create_cluster_request (self : t) (host : string) : Request :=
  RunShell (SStr host) (create_cluster_command self).

Definition create_nodes_request (self : t) (ip_address : string) : Request :=
  RunScript "add_node.yaml" (SStr (cluster_name self)) (create_nodes_params ip_address).

Definition configure_nodes_request (self : t) : Request :=
  RunShell (SStr (cluster_name self)) configure_nodes_command.

(** The requests of [create] in the documented order: reset, reboot, create
    cluster, add nodes, configure nodes, whose last act is a reboot. *)
Definition create_plan (self : t) : list Request :=
  buildable
    [ Some (reset_request self);
      Some (reboot_request self);
      create_cluster_request self <$> attribute self "host";
      create_nodes_request self <$> attribute self "ip_address";
      Some (configure_nodes_request self);
      Some (reboot_request self) ].

Definition destroy (self : t) : M pyvalue :=
  reset self;;
  reboot self;;
  ret PyNone.

Definition create (self : t) : M bool :=
  print ("[step 1] resetting all nodes into the cluster " +:+ bound_method self +:+ "...");;
  ok ← reset self;
  if negb ok then
    print "[step 1] it is not possible to reset all nodes";;
    ret false
  else
  print ("[step 2] reboot all nodes into the cluster " +:+ cluster_name self +:+ "...");;
  ok ← reboot self;
  if negb ok then
    print "[step 2] it is not possible to reboot all nodes";;
    ret false
  else
  sleep 30;;
  print ("[step 3] create the cluster with name " +:+ cluster_name self +:+ "...");;
  ok ← create_cluster self;
  if negb ok then
    print ("[step 3] it is not possible to create the cluster with name "
           +:+ cluster_name self);;
    ret false
  else
  sleep 10;;
  print ("[step 4] add nodes into the cluster " +:+ cluster_name self +:+ "...");;
  ok ← create_nodes self;
  if negb ok then
    print ("[step 4] it is not possible to add nodes the cluster " +:+ bound_method self);;
    ret false
  else
  sleep 5;;
  print ("[step 5] configure all nodes into the cluster " +:+ bound_method self +:+ "...");;
  ok ← configure_nodes self;
  if negb ok then
    print ("[step 5] it is not possible to configure all nodes into the cluster "
           +:+ bound_method self);;
    ret false
  else
  ret true.


(** [self.cluster_config['storage']], name to attributes in the order of the
    mapping; [None] when the configuration has no such section. *)
Variable storage_section : option (list (string * gmap string string)).

(** A list comprehension whose element expression may raise. *)
Fixpoint comprehension {A B} (f : A -> M B) (l : list A) : M (list B) :=
  match l with
  | [] => ret []
  | a :: l' =>
      b ← f a;
      bs ← comprehension f l';
      ret (b :: bs)
  end.

Definition storage_entry (item : string * gmap string string) : M (gmap string string) :=
  server ← subscript (item.2 !! "server");
  path ← subscript (item.2 !! "path");
  ret ({[ "name" := item.1; "server" := server; "path" := path ]} : gmap string string).

Definition storages (self : t) : M (list (gmap string string)) :=
  storages ← subscript storage_section;
  comprehension storage_entry storages.

Definition create_storage_command (storage_name ip_address path : string) : Command :=
  new_command "add storages..."
    +=> ("pvesm add nfs " +:+ storage_name +:+ " --server " +:+ ip_address
         +:+ " --export " +:+ path +:+ " --content iso,backup,images").

Definition create_storage (self : t) (storage : gmap string string) : M bool :=
  storage_name ← subscript (storage !! "name");
  ip_address ← subscript (storage !! "server");
  path ← subscript (storage !! "path");
  print ("add storage " +:+ storage_name +:+ " into the cluster " +:+ bound_method self
         +:+ "...");;
  run_shell_on_master_host self (create_storage_command storage_name ip_address path).

End Methods.

End Cluster.

(** ** vm.py *)

Module VM.

Record t := mk {
  base : Playbook.t;
  vm_name : string;
  cluster_config : Config;
  vm_init_name : string
}.

Section Methods.

Variable gateway : Playbook.t -> list Event -> Request -> bool.
(** [command()], the rendering of a command as one string. *)
Variable render : Command -> string.
(** [get_cluster_config()]. *)
Variable the_config : Config.

#[local] Abbreviation run_shell := (Playbook.run_shell gateway).
#[local] Abbreviation run := (Playbook.run gateway).
#[local] Abbreviation ping_hosts := (Playbook.ping_hosts gateway).

(** The constructor raises when the configuration names no init host. *)
Definition __init__ (vm_name : string) (dry_run verbose : option bool) : outcome t :=
  let base := Playbook.__init__ (default true dry_run) (default false verbose) in
  match images_hostname the_config with
  | Some hostname => Ok (mk base vm_name the_config hostname)
  | None => Raise KeyError
  end.

(** [cluster_config['vm'][vm_name][key]], [None] where Python raises
    [KeyError]. *)
Definition attribute (self : t) (key : string) : option scalar :=
  vm_section (cluster_config self) !! vm_name self ≫= (.!! key).

Definition vm (self : t) (key : string) : M scalar :=
  subscript (attribute self key).

Definition image (self : t) : M string :=
  key ← vm self "image";
  subscript (images_paths (cluster_config self) !! key).

Definition ping (self : t) : M pyvalue :=
  ping_hosts (base self) (SStr (vm_name self));;
  ret PyNone.

Definition run_shell_on_vm (self : t) (command : Command) : M bool :=
  run_shell (base self) (SStr (vm_name self)) command.

Definition run_shell_on_host (self : t) (command : Command) : M bool :=
  vm_host ← vm self "host";
  run_shell (base self) vm_host command.

Definition restore_command (image : string) (vmid sockets cores memory_mb storage vm_name : scalar)
    : Command :=
  new_command "restore vm..."
    +=> ("qmrestore " +:+ image +:+ " " +:+ format vmid +:+ " --storage " +:+ format storage
         +:+ " --unique --force")
    +=> ("qm set " +:+ format vmid +:+ " --name " +:+ format vm_name
         +:+ " --sockets " +:+ format sockets +:+ " --cores " +:+ format cores
         +:+ " --memory " +:+ format memory_mb +:+ " --cpu host")
    +=> ("qm start " +:+ format vmid).

Definition restore (self : t) : M bool :=
  image ← image self;
  vmid ← vm self "vmid";
  sockets ← vm self "sockets";
  cores ← vm self "cores";
  memory_mb ← vm self "memory_mb";
  storage ← vm self "storage";
  vm_name ← vm self "vm_name";
  run_shell_on_host self (restore_command image vmid sockets cores memory_mb storage vm_name).

Definition snapshot_command (self : t) (vmid : scalar) (name : string) : Command :=
  new_command ("snapshot vm " +:+ vm_name self +:+ "...")
    +=> ("qm snapshot " +:+ format vmid +:+ " " +:+ name).

Definition snapshot (self : t) (name : string) : M bool :=
  vmid ← vm self "vmid";
  run_shell_on_host self (snapshot_command self vmid name).

Definition reboot_command (self : t) (vmid : scalar) : Command :=
  new_command ("reboot vm " +:+ vm_name self +:+ "...")
    +=> ("qm stop " +:+ format vmid +:+ " && qm start " +:+ format vmid).

Definition reboot (self : t) : M bool :=
  vmid ← vm self "vmid";
  run_shell_on_host self (reboot_command self vmid).

Definition script_http : string :=
  "https://raw.githubusercontent.com/lps-ufrj-br/datacenter/refs/heads/main/data/scripts/configure_network.sh".

Definition configure_network_command (self : t) (ip_address : scalar) : Command :=
  let script_name := last_segment EmptyString script_http in
  new_command ("configure network on vm " +:+ vm_name self +:+ "...")
    +=> ("wget " +:+ script_http +:+ " && bash " +:+ script_name +:+ " " +:+ vm_name self
         +:+ " " +:+ format ip_address).

Definition configure_network_params (self : t) (ip_address : scalar) : list (string * string) :=
  [ ("command", "'" +:+ render (configure_network_command self ip_address) +:+ "'");
    ("ip_address", "'" +:+ format ip_address +:+ "'");
    ("vm_name", vm_name self) ].

Definition configure_network (self : t) : M bool :=
  ip_address ← vm self "ip_address";
  run (base self) "configure_network.yaml" (SStr (vm_init_name self))
      (configure_network_params self ip_address).

Definition pci_instruction (vmid device : scalar) : string :=
  "qm set " +:+ format vmid +:+ " -hostpci0 " +:+ format device.

Definition onboot_instruction (vmid : scalar) : string :=
  "qm set " +:+ format vmid +:+ " --onboot 1".

Definition configure_options_command (vmid device : scalar) : Command :=
  let command := new_command "set VM options..." in
  let command :=
    if differs_from_empty device then command +=> pci_instruction vmid device
    else command in
  command +=> onboot_instruction vmid.

Definition configure_options (self : t) : M bool :=
  vmid ← vm self "vmid";
  device ← vm self "pci";
  run_shell_on_host self (configure_options_command vmid device).

(** The requests the steps above send, by step; [None] where a lookup
    raises. *)
Definition restore_request (self : t) : option Request :=
  key ← attribute self "image";
  image ← images_paths (cluster_config self) !! key;
  vmid ← attribute self "vmid";
  sockets ← attribute self "sockets";
  cores ← attribute self "cores";
  memory_mb ← attribute self "memory_mb";
  storage ← attribute self "storage";
  vm_name ← attribute self "vm_name";
  vm_host ← attribute self "host";
  Some (RunShell vm_host
          (restore_command image vmid sockets cores memory_mb storage vm_name)).

Definition configure_network_request (self : t) : option Request :=
  ip_address ← attribute self "ip_address";
  Some (RunScript "configure_network.yaml" (SStr (vm_init_name self))
          (configure_network_params self ip_address)).

Definition configure_options_request (self : t) : option Request :=
  vmid ← attribute self "vmid";
  device ← attribute self "pci";
  vm_host ← attribute self "host";
  Some (RunShell vm_host (configure_options_command vmid device)).

Definition snapshot_request (self : t) (name : string) : option Request :=
  vmid ← attribute self "vmid";
  vm_host ← attribute self "host";
  Some (RunShell vm_host (snapshot_command self vmid name)).

Definition reboot_request (self : t) : option Request :=
  vmid ← attribute self "vmid";
  vm_host ← attribute self "host";
  Some (RunShell vm_host (reboot_command self vmid)).

(** The requests of [create] in the documented order: restore, configure
    network, configure options, snapshot, reboot. *)
Definition create_plan (self : t) (snapname : option string) : list Request :=
  buildable
    [ restore_request self;
      configure_network_request self;
      configure_options_request self;
      snapshot_request self (default "base" snapname);
      reboot_request self ].

Definition destroy_command (self : t) (vmid : scalar) : Command :=
  new_command ("destroy vm " +:+ vm_name self +:+ "...")
    +=> ("qm stop " +:+ format vmid +:+ " && qm destroy " +:+ format vmid
         +:+ " --destroy-unreferenced-disks").

Definition destroy (self : t) : M bool :=
  vmid ← vm self "vmid";
  run_shell_on_host self (destroy_command self vmid).

Definition create (self : t) (snapname : option string) : M bool :=
  let snapname := default "base" snapname in
  print "restore image into the host...";;
  ok ← restore self;
  sleep 40;;
  if negb ok then ret false else
  print ("configure network into " +:+ vm_name self);;
  ok ← configure_network self;
  if negb ok then ret false else
  print ("configure options into " +:+ vm_name self);;
  ok ← configure_options self;
  if negb ok then ret false else
  print "take a snapshot...";;
  snapshot self snapname;;
  reboot self;;
  ret true.

Definition destroy_request (self : t) : option Request :=
  vmid ← attribute self "vmid";
  vm_host ← attribute self "host";
  Some (RunShell vm_host (destroy_command self vmid)).

End Methods.

End VM.

(** ** Reading a run *)

Definition target_of (rq : Request) : scalar :=
  match rq with
  | RunShell target _ => target
  | RunScript _ target _ => target
  | PingHosts target => target
  end.

(** The number of requests of a run that passed. *)
Definition passed (evs : list Event) : nat :=
  length (filter (fun c => c.2 = true) (calls evs)).

(** A step that first reads the configuration and then sends one request:
    it raises with nothing sent when the request cannot be built. *)
Definition lookup_then_call (gateway : Playbook.t -> list Event -> Request -> bool)
    (self : Playbook.t) (rq : option Request) : M bool :=
  match rq with
  | Some rq => Playbook.call gateway self rq
  | None => raise KeyError
  end.

(** What [storages] makes of one entry of the section. *)
Definition listed (item : string * gmap string string) (d : gmap string string) : Prop :=
  exists server path,
    item.2 !! "server" = Some server /\ item.2 !! "path" = Some path /\
    d = {[ "name" := item.1; "server" := server; "path" := path ]}.

Definition incomplete (item : string * gmap string string) : Prop :=
  item.2 !! "server" = None \/ item.2 !! "path" = None.

(** ** reservation_manager.py *)

Module Reservation.

Inductive stream :=
| Stdout
| Stderr.

#[global] Instance stream_eq_dec : EqDecision stream.
Proof. solve_decision. Defined.

(** What the script does to the outside: a line printed, a process run. *)
Inductive effect :=
| Write (to : stream) (line : string)
| Exec (command : list string).

(** How [subprocess.run(command, check=True, capture_output=True, text=True)]
    ends: the process exits with status zero, it exits with another status
    and [CalledProcessError] is raised ([message] is [str(e)]), or another
    exception is raised, as when the program cannot be started. *)
Inductive completion :=
| Completed (stdout stderr : string)
| CalledProcessError (message stdout stderr : string)
| OtherError.

(** A call returns or lets the exception through. *)
Inductive result (A : Type) :=
| Returned (a : A)
| Propagated.
Arguments Returned {A} a.
Arguments Propagated {A}.

(** The sub-commands the parser knows, [create] and [delete]; it refuses any
    other word. *)
Inductive subcommand :=
| Create
| Delete.

#[global] Instance subcommand_eq_dec : EqDecision subcommand.
Proof. solve_decision. Defined.

(** The namespace [parse_args()] returns.  [command] is the sub-command,
    [None] when none was given; the other attributes are those of the
    sub-command, [flags] being [None] unless [--flags] was passed. *)
Record namespace := mk_namespace {
  command : option subcommand;
  name : string;
  nodes : string;
  users : string;
  duration : string;
  starttime : string;
  flags : option string
}.

(** How [parser.parse_args()] ends: with the namespace, or with [SystemExit]
    after the parser has printed [text]: status 2 and the error stream for a
    missing required option or an unknown word, status 0 and the standard
    output for [-h]. *)
Inductive parsing :=
| Parsed (args : namespace)
| SystemExit (status : nat) (to : stream) (text : string).

(** How [main] ends: it returns, an exception of the process goes through, or
    the parser has left with a status. *)
Inductive termination :=
| Finished
| Raised
| Exited (status : nat).

(** The truth value of a string and of an optional string. *)
Definition truthy (s : string) : bool :=
  match s with
  | EmptyString => false
  | String _ _ => true
  end.

Definition given (o : option string) : bool :=
  match o with
  | Some s => truthy s
  | None => false
  end.

(** [str(args.flags)] *)
Definition str_of_option (o : option string) : string :=
  match o with
  | Some s => s
  | None => "None"
  end.

Definition execs (effects : list effect) : list (list string) :=
  omap (fun e => match e with Exec c => Some c | _ => None end) effects.

Definition written (to : stream) (effects : list effect) : list string :=
  omap (fun e => match e with
                 | Write to' line => if decide (to' = to) then Some line else None
                 | _ => None
                 end) effects.

Section Script.

Variable subprocess_run : list string -> completion.
(** What [parser.print_help()] prints. *)
Variable help : string.

Definition run_command (command : list string) : result bool * list effect :=
  let executing := Write Stdout ("Executing: " +:+ String.concat " " command) in
  match subprocess_run command with
  | Completed stdout stderr =>
      (Returned true,
       [executing; Exec command]
         ++ (if truthy stdout then [Write Stdout stdout] else [])
         ++ (if truthy stderr then [Write Stderr stderr] else []))
  | CalledProcessError e stdout stderr =>
      (Returned false,
       [executing; Exec command; Write Stderr ("Error executing command: " +:+ e)]
         ++ (if truthy stdout then [Write Stderr ("Stdout: " +:+ stdout)] else [])
         ++ (if truthy stderr then [Write Stderr ("Stderr: " +:+ stderr)] else []))
  | OtherError => (Propagated, [executing; Exec command])
  end.

Definition create_command (args : namespace) : list string :=
  let cmd :=
    [ "sudo"; "scontrol"; "create"; "reservation";
      "ReservationName=" +:+ name args;
      "StartTime=" +:+ starttime args;
      "Duration=" +:+ duration args;
      "Nodes=" +:+ nodes args;
      "Users=" +:+ users args ] in
  if given (flags args) then cmd ++ ["Flags=" +:+ str_of_option (flags args)] else cmd.

Definition create_reservation (args : namespace) : result unit * list effect :=
  match run_command (create_command args) with
  | (Returned ok, effects) =>
      (Returned tt,
       effects ++
       [Write Stdout (if ok then "Reservation '" +:+ name args +:+ "' created successfully."
                      else "Failed to create reservation '" +:+ name args +:+ "'.")])
  | (Propagated, effects) => (Propagated, effects)
  end.

Definition delete_command (args : namespace) : list string :=
  [ "sudo"; "scontrol"; "delete"; "ReservationName=" +:+ name args ].

Definition delete_reservation (args : namespace) : result unit * list effect :=
  match run_command (delete_command args) with
  | (Returned ok, effects) =>
      (Returned tt,
       effects ++
       [Write Stdout (if ok then "Reservation '" +:+ name args +:+ "' deleted successfully."
                      else "Failed to delete reservation '" +:+ name args +:+ "'.")])
  | (Propagated, effects) => (Propagated, effects)
  end.

(** What a call in statement position leaves of [main]. *)
Definition statement (run : result unit * list effect) : termination * list effect :=
  match run with
  | (Returned _, effects) => (Finished, effects)
  | (Propagated, effects) => (Raised, effects)
  end.

(** What [parser.parse_args()] does with the command line. *)
Variable parse_args : parsing.

Definition main : termination * list effect :=
  match parse_args with
  | SystemExit status to text => (Exited status, [Write to text])
  | Parsed args =>
      if decide (command args = Some Create) then statement (create_reservation args)
      else if decide (command args = Some Delete) then statement (delete_reservation args)
      else (Finished, [Write Stdout help])
  end.

End Script.

End Reservation.

(** ** Fixtures: one cluster, one machine, and executors that fail on demand *)

Module Fixture.

Definition config : Config :=
  mkConfig
    {[ "c1" := {[ "host" := "node01"; "ip_address" := "10.1.0.1" ]} ]}
    {[ "v1" := {[ "host" := SStr "node01"; "vmid" := SInt 100; "image" := SStr "base";
                  "sockets" := SInt 1; "cores" := SInt 4; "memory_mb" := SInt 8192;
                  "storage" := SStr "storage01"; "vm_name" := SStr "v1";
                  "ip_address" := SStr "10.1.0.50"; "pci" := SStr EmptyString ]} ]}
    (Some "init")
    {[ SStr "base" := "/mnt/images/base.vma.zst" ]}.

Definition label_of (rq : Request) : string :=
  match rq with
  | RunShell _ command => label command
  | RunScript script _ _ => script
  | PingHosts _ => "ping"
  end.

(** Every request succeeds. *)
Definition obliging : Playbook.t -> list Event -> Request -> bool :=
  fun _ _ _ => true.

(** Every request succeeds but those of the command or procedure [name]. *)
Definition failing (name : string) : Playbook.t -> list Event -> Request -> bool :=
  fun _ _ rq => negb (String.eqb (label_of rq) name).

Definition master_key : string := "s3cret".

Definition bound_method (self : Cluster.t) : string :=
  "<bound method Cluster.cluster of " +:+ Cluster.cluster_name self +:+ ">".

Definition render (command : Command) : string :=
  String.concat " && " (instructions command).

Definition c1 : Cluster.t := Cluster.__init__ config "c1" None None.

Definition v1 : VM.t := VM.mk (Playbook.__init__ true false) "v1" config "init".

End Fixture.

(** ** Samples: incomplete configurations, storages, a machine with an
    integer device *)

Module Sample.

(** A cluster without master host, a machine without device entry and one
    whose device is the integer 0. *)
Definition config : Config :=
  mkConfig
    {[ "c2" := {[ "ip_address" := "10.2.0.1" ]} ]}
    {[ "v2" := {[ "host" := SStr "node02"; "vmid" := SInt 200; "image" := SStr "base";
                  "sockets" := SInt 1; "cores" := SInt 2; "memory_mb" := SInt 4096;
                  "storage" := SStr "storage01"; "vm_name" := SStr "v2";
                  "ip_address" := SStr "10.2.0.50" ]};
       "v3" := {[ "host" := SStr "node02"; "vmid" := SInt 300; "pci" := SInt 0 ]} ]}
    (Some "init")
    {[ SStr "base" := "/mnt/images/base.vma.zst" ]}.

Definition c2 : Cluster.t := Cluster.__init__ config "c2" None None.

Definition v2 : VM.t := VM.mk (Playbook.__init__ true false) "v2" config "init".

Definition v3 : VM.t := VM.mk (Playbook.__init__ true false) "v3" config "init".

Definition storage_section : option (list (string * gmap string string)) :=
  Some [ ("storage01", {[ "server" := "10.1.0.9"; "path" := "/mnt/storage01";
                          "content" := "images" ]});
         ("backup", {[ "server" := "10.1.0.10"; "path" := "/mnt/backup" ]}) ].

Definition storage01 : gmap string string :=
  {[ "name" := "storage01"; "server" := "10.1.0.9"; "path" := "/mnt/storage01" ]}.

(** A storage dictionary without path. *)
Definition pathless : gmap string string :=
  {[ "name" := "scratch"; "server" := "10.1.0.11" ]}.

(** [scontrol] refuses every deletion and accepts the rest. *)
Definition subprocess_run (command : list string) : Reservation.completion :=
  if decide (command !! 2 = Some "delete")
  then Reservation.CalledProcessError
         "Command returned non-zero exit status 1." EmptyString "scontrol: error"
  else Reservation.Completed "Reservation created: maintenance" EmptyString.

Definition maintenance : Reservation.namespace :=
  Reservation.mk_namespace (Some Reservation.Create) "maintenance" "caloba[10-12]" "user1,user2"
    "UNLIMITED" "now" (Some "MAINT").

End Sample.

(** * Properties *)

Lemma gated_last (n : nat) (cs : list (Request * bool)) (r : outcome bool) :
  gated n cs r ->
  forall l1 rq l2, cs = l1 ++ (rq, false) :: l2 -> length l1 < n -> l2 = [] /\ r = Ok false.
Proof.
  revert cs. induction n as [|n IH]; intros cs Hg l1 rq l2 -> Hlen; [lia|].
  destruct l1 as [|[rq' ok'] l1]; cbn in *.
  - exact Hg.
  - destruct ok'.
    + eapply IH; [exact Hg | reflexivity | lia].
    + destruct Hg as [Hnil _]. destruct l1; discriminate Hnil.
Qed.

Section ClusterProperties.

Variable gateway : Playbook.t -> list Event -> Request -> bool.
Variable master_key : string.
Variable bound_method : Cluster.t -> string.

#[local] Abbreviation reset := (Cluster.reset gateway bound_method).
#[local] Abbreviation reboot := (Cluster.reboot gateway).
#[local] Abbreviation configure_nodes := (Cluster.configure_nodes gateway).
#[local] Abbreviation destroy := (Cluster.destroy gateway bound_method).
#[local] Abbreviation create := (Cluster.create gateway master_key bound_method).

Ltac run_cluster :=
  unfold Cluster.create, Cluster.destroy, Cluster.configure_nodes, Cluster.create_nodes,
    Cluster.create_cluster, Cluster.reboot, Cluster.reset, Cluster.ping,
    Cluster.run_shell_on_master_host, Cluster.run_script_on_all, Cluster.run_shell_on_all,
    Cluster.cluster, Playbook.run_shell, Playbook.run, Playbook.ping_hosts, Playbook.call,
    when, print, sleep, emit, subscript, mbind, M_bind, bind, ret, raise.

Ltac answer :=
  match goal with
  | |- context [gateway ?p ?hh ?rq] =>
      lazymatch hh with
      | context [gateway _ _ _] => fail
      | _ => destruct (gateway p hh rq) eqn:?
      end
  end.

(** C1.  On a cluster whose configuration names the master host and the
    joining address, a run of [create] in which no request failed returns
    success; it prints exactly five numbered lines, steps 1 to 5 in order
    (reset, reboot, create cluster, add nodes, configure nodes), and sleeps
    exactly three times, 30 units after the reboot, 10 after the creation of
    the cluster and 5 after the addition of the nodes, 45 in all. *)
Theorem cluster_create_all_steps_succeed (self : Cluster.t) (h : list Event)
    (host ip : string) (r : outcome bool) (evs : list Event) :
  Cluster.attribute self "host" = Some host ->
  Cluster.attribute self "ip_address" = Some ip ->
  create self h = (r, evs) ->
  failed_calls evs = [] ->
  r = Ok true /\
  evs =
    [ EPrint ("[step 1] resetting all nodes into the cluster " +:+ bound_method self +:+ "...");
      EPrint ("reset the cluster with name " +:+ bound_method self);
      ECall (Cluster.reset_request self) true;
      EPrint ("[step 2] reboot all nodes into the cluster " +:+ Cluster.cluster_name self
              +:+ "...");
      ECall (Cluster.reboot_request self) true;
      ESleep 30;
      EPrint ("[step 3] create the cluster with name " +:+ Cluster.cluster_name self +:+ "...");
      EPrint ("create cluster into the host " +:+ host +:+ " for cluster "
              +:+ Cluster.cluster_name self);
      ECall (Cluster.create_cluster_request self host) true;
      ESleep 10;
      EPrint ("[step 4] add nodes into the cluster " +:+ Cluster.cluster_name self +:+ "...");
      EPrint ("add nodes into the cluster " +:+ bound_method self +:+ "...");
      ECall (Cluster.create_nodes_request master_key self ip) true;
      ESleep 5;
      EPrint ("[step 5] configure all nodes into the cluster " +:+ bound_method self +:+ "...");
      ECall (Cluster.configure_nodes_request self) true;
      ECall (Cluster.reboot_request self) true ] /\
  numbered_steps evs = [1; 2; 3; 4; 5]%nat /\
  sleeps evs = [30; 10; 5]%nat /\
  sum_list (sleeps evs) = 45%nat.
Proof.
  intros Hhost Hip Hrun Hok. revert Hrun.
  run_cluster. rewrite Hhost, Hip. cbn.
  repeat (answer; cbn); intros [= <- <-]; try discriminate Hok.
  repeat split; reflexivity.
Qed.

(** Requests of different steps are different requests. *)
Ltac distinct_requests :=
  repeat match goal with
         | H : _ \/ _ |- _ => destruct H
         | H : False |- _ => destruct H
         | H : (_, _) = (_, _) |- _ =>
             try discriminate H; injection H as H ?; try discriminate
         end.

(** C3, as amended.  When the reset and the reboot pass and the creation of
    the cluster on the master host fails, [create] returns failure after
    exactly one settle wait, the 30 units that follow the reboot; the waits of
    10 and 5 units are never reached and nothing is sent for steps 4 and 5. *)
Theorem cluster_create_step3_fails (self : Cluster.t) (h : list Event)
    (host : string) (r : outcome bool) (evs : list Event) :
  Cluster.attribute self "host" = Some host ->
  create self h = (r, evs) ->
  In (Cluster.create_cluster_request self host, false) (calls evs) ->
  r = Ok false /\
  sleeps evs = [30]%nat /\
  requests evs = [ Cluster.reset_request self; Cluster.reboot_request self;
                   Cluster.create_cluster_request self host ] /\
  numbered_steps evs = [1; 2; 3; 3]%nat.
Proof.
  intros Hhost Hrun Hin. revert Hrun.
  run_cluster. rewrite Hhost. cbn.
  destruct (Cluster.attribute self "ip_address") as [ip|]; cbn;
    repeat (answer; cbn); intros [= <- <-]; cbn in Hin;
    try (exfalso; distinct_requests; fail);
    repeat split; reflexivity.
Qed.

(** C6.  [destroy] runs [reset] and then [reboot] whatever [reset] returned:
    the run is the run of [reset] followed by the reboot request. *)
Theorem cluster_destroy_resets_then_reboots (self : Cluster.t) (h : list Event) :
  exists (ok1 ok2 : bool) (e1 : list Event),
    reset self h = (Ok ok1, e1) /\
    reboot self (h ++ e1) = (Ok ok2, [ECall (Cluster.reboot_request self) ok2]) /\
    destroy self h = (Ok PyNone, e1 ++ [ECall (Cluster.reboot_request self) ok2]) /\
    requests (destroy self h).2 = [Cluster.reset_request self; Cluster.reboot_request self].
Proof.
  run_cluster. cbn. eexists _, _, _. repeat split.
Qed.

(** C8.  [configure_nodes] reboots exactly when the configuration script
    passed on all hosts: a failed script gives failure and no reboot, a
    passed one gives what [reboot] returns. *)
Theorem cluster_configure_nodes_reboots_iff_configured (self : Cluster.t) (h : list Event) :
  let script := Cluster.configure_nodes_request self in
  let ok := gateway (Cluster.base self) h script in
  let run := configure_nodes self h in
  (ok = false ->
     run = (Ok false, [ECall script false;
                       EPrint "it is not possible to configure nodes..."])) /\
  (ok = true ->
     exists (rebooted : bool) (e : list Event),
       reboot self (h ++ [ECall script true]) = (Ok rebooted, e) /\
       e = [ECall (Cluster.reboot_request self) rebooted] /\
       run = (Ok rebooted, ECall script true :: e)) /\
  (In (Cluster.reboot_request self) (requests run.2) <-> ok = true).
Proof.
  cbv zeta. run_cluster. cbn.
  fold (Cluster.configure_nodes_request self).
  destruct (gateway (Cluster.base self) h (Cluster.configure_nodes_request self)) eqn:Hok;
    cbn; rewrite ?app_nil_r; repeat split; try discriminate; try reflexivity.
  - intros _. eexists _, _. repeat split.
  - intros _. right. left. reflexivity.
  - intros [H|[]]. discriminate H.
Qed.

Lemma cluster_create_fail_fast (self : Cluster.t) (h : list Event)
    (r : outcome bool) (evs : list Event) :
  create self h = (r, evs) ->
  requests evs `prefix_of` Cluster.create_plan master_key self /\
  gated 6 (calls evs) r.
Proof.
  unfold Cluster.create_plan. run_cluster.
  destruct (Cluster.attribute self "host") as [host|];
    destruct (Cluster.attribute self "ip_address") as [ip|]; cbn;
    repeat (answer; cbn); intros [= <- <-]; cbn;
    (split; [eexists; reflexivity | repeat split]).
Qed.

Lemma cluster_create_runs_the_plan (self : Cluster.t) (h : list Event)
    (r : outcome bool) (evs : list Event) :
  create self h = (r, evs) ->
  failed_calls evs = [] ->
  requests evs = Cluster.create_plan master_key self /\
  (length (Cluster.create_plan master_key self) = 6 -> r = Ok true) /\
  (length (Cluster.create_plan master_key self) < 6 -> r = Raise KeyError).
Proof.
  unfold Cluster.create_plan. run_cluster.
  destruct (Cluster.attribute self "host") as [host|];
    destruct (Cluster.attribute self "ip_address") as [ip|]; cbn;
    repeat (answer; cbn); intros [= <- <-] Hpassed; try discriminate Hpassed; cbn;
    repeat split; try reflexivity; intros Hlen; exfalso; lia.
Qed.

End ClusterProperties.

Lemma cluster_create_all_steps_succeed_witness :
  let run := Cluster.create Fixture.obliging Fixture.master_key Fixture.bound_method
               Fixture.c1 [] in
  run.1 = Ok true /\ numbered_steps run.2 = [1; 2; 3; 4; 5]%nat /\
  sleeps run.2 = [30; 10; 5]%nat /\ sum_list (sleeps run.2) = 45%nat.
Proof.
  intros run.
  destruct (cluster_create_all_steps_succeed Fixture.obliging Fixture.master_key
              Fixture.bound_method Fixture.c1 [] "node01" "10.1.0.1" run.1 run.2)
    as (Hr & _ & Hsteps & Hwaits & Hsum).
  - reflexivity.
  - reflexivity.
  - vm_compute. reflexivity.
  - vm_compute. reflexivity.
  - exact (conj Hr (conj Hsteps (conj Hwaits Hsum))).
Defined.

Section VMProperties.

Variable gateway : Playbook.t -> list Event -> Request -> bool.
Variable render : Command -> string.

#[local] Abbreviation restore := (VM.restore gateway).
#[local] Abbreviation configure_network := (VM.configure_network gateway render).
#[local] Abbreviation configure_options := (VM.configure_options gateway).
#[local] Abbreviation create := (VM.create gateway render).

Ltac run_vm_steps :=
  unfold VM.restore, VM.configure_network, VM.configure_options, VM.snapshot, VM.reboot,
    VM.destroy, VM.ping, VM.image, VM.run_shell_on_host, VM.run_shell_on_vm, VM.vm,
    Playbook.run_shell, Playbook.run, Playbook.ping_hosts, Playbook.call,
    when, print, sleep, emit, subscript, mbind, M_bind, bind, ret, raise.

Ltac run_vm := unfold VM.create; run_vm_steps.

Ltac vm_answer :=
  match goal with
  | |- context [gateway ?p ?hh ?rq] =>
      lazymatch hh with
      | context [gateway _ _ _] => fail
      | _ => destruct (gateway p hh rq) eqn:?
      end
  end.

Ltac vm_lookup self :=
  match goal with
  | |- context [match VM.attribute self ?k with _ => _ end] =>
      destruct (VM.attribute self k) eqn:?
  | |- context [match images_paths ?c !! ?k with _ => _ end] =>
      destruct (images_paths c !! k) eqn:?
  end.

(** C4.  Whatever [restore] returned, [create] sleeps 40 units right after
    it, before looking at the result; when [restore] returned failure,
    [create] returns failure and nothing follows the wait: neither
    [configure_network] nor [configure_options] is invoked. *)
Theorem vm_create_waits_before_checking_restore (self : VM.t) (snapname : option string)
    (h : list Event) (ok : bool) (e : list Event) :
  restore self (h ++ [EPrint "restore image into the host..."]) = (Ok ok, e) ->
  exists (r : outcome bool) (rest : list Event),
    create self snapname h
      = (r, EPrint "restore image into the host..." :: e ++ ESleep 40 :: rest) /\
    (ok = false -> r = Ok false /\ rest = []).
Proof.
  intros Hrestore.
  unfold VM.create, mbind, M_bind, bind, print, sleep, emit.
  rewrite Hrestore. destruct ok.
  - cbn -[VM.configure_network VM.configure_options VM.snapshot VM.reboot].
    repeat (match goal with
            | |- context [let (_, _) := ?step self ?hh in _] =>
                destruct (step self hh) as [[[]|] ?]
            | |- context [let (_, _) := VM.snapshot _ self ?n ?hh in _] =>
                destruct (VM.snapshot gateway self n hh) as [[[]|] ?]
            | |- context [let (_, _) := VM.reboot _ self ?hh in _] =>
                destruct (VM.reboot gateway self hh) as [[[]|] ?]
            end;
            cbn -[VM.configure_network VM.configure_options VM.snapshot VM.reboot]);
      eexists _, _; (split; [reflexivity | intros [=]]).
  - cbn. eexists _, _. split; [reflexivity | intros _; split; reflexivity].
Qed.

Lemma vm_restore_needs_vmid_and_host (self : VM.t) (h : list Event)
    (ok : bool) (e : list Event) :
  restore self h = (Ok ok, e) ->
  exists vmid host,
    VM.attribute self "vmid" = Some vmid /\ VM.attribute self "host" = Some host.
Proof.
  run_vm_steps. repeat (vm_lookup self; cbn); try discriminate.
  intros _. eexists _, _. split; reflexivity.
Qed.

Ltac normalise_history :=
  repeat first [rewrite <- app_assoc | rewrite app_nil_r | progress cbn [app]].

(** C5.  When [restore], [configure_network] and [configure_options] each
    returned success where [create] runs them, [create] returns success: it
    goes on to send the snapshot and the reboot, and whatever these two
    answer ([ok4], [ok5]) the result is [True]. *)
Theorem vm_create_succeeds_after_three_steps (self : VM.t) (snapname : option string)
    (h e1 e2 e3 : list Event) :
  let p0 := EPrint "restore image into the host..." in
  let p1 := EPrint ("configure network into " +:+ VM.vm_name self) in
  let p2 := EPrint ("configure options into " +:+ VM.vm_name self) in
  restore self (h ++ [p0]) = (Ok true, e1) ->
  configure_network self (h ++ p0 :: e1 ++ [ESleep 40; p1]) = (Ok true, e2) ->
  configure_options self (h ++ p0 :: e1 ++ ESleep 40 :: p1 :: e2 ++ [p2]) = (Ok true, e3) ->
  exists (snapshot_rq reboot_rq : Request) (ok4 ok5 : bool),
    VM.snapshot_request self (default "base" snapname) = Some snapshot_rq /\
    VM.reboot_request self = Some reboot_rq /\
    create self snapname h
      = (Ok true,
         p0 :: e1 ++ ESleep 40 :: p1 :: e2 ++ p2 :: e3
            ++ [EPrint "take a snapshot..."; ECall snapshot_rq ok4; ECall reboot_rq ok5]).
Proof.
  intros p0 p1 p2 H1 H2 H3.
  destruct (vm_restore_needs_vmid_and_host _ _ _ _ H1) as (vmid & host & Hvmid & Hhost).
  unfold VM.snapshot_request, VM.reboot_request. rewrite Hvmid, Hhost. cbn.
  eexists _, _, _, _. split; [reflexivity|]. split; [reflexivity|].
  unfold VM.create, mbind, M_bind, bind, print, sleep, emit.
  fold p0. rewrite H1.
  cbn -[VM.configure_network VM.configure_options VM.snapshot VM.reboot].
  fold p1. normalise_history. rewrite H2.
  cbn -[VM.configure_network VM.configure_options VM.snapshot VM.reboot].
  fold p2. normalise_history. rewrite H3.
  cbn -[VM.configure_network VM.configure_options VM.snapshot VM.reboot].
  run_vm_steps. rewrite Hvmid, Hhost. cbn. normalise_history.
  reflexivity.
Qed.

Lemma vm_create_fail_fast (self : VM.t) (snapname : option string) (h : list Event)
    (r : outcome bool) (evs : list Event) :
  create self snapname h = (r, evs) ->
  requests evs `prefix_of` VM.create_plan render self snapname /\
  gated 3 (calls evs) r /\
  (3 < length (calls evs) ->
     requests evs = VM.create_plan render self snapname /\
     length (calls evs) = 5 /\ r = Ok true).
Proof.
  unfold VM.create_plan, VM.restore_request, VM.configure_network_request,
    VM.configure_options_request, VM.snapshot_request, VM.reboot_request.
  run_vm.
  repeat (first [vm_lookup self | vm_answer]; cbn);
    intros [= <- <-]; cbn; (split; [|split]);
    try (eexists; reflexivity); try exact I; try reflexivity;
    try (intros Hlen; exfalso; lia); try (repeat split; fail).
Qed.




Lemma vm_create_runs_the_plan (self : VM.t) (snapname : option string) (h : list Event)
    (r : outcome bool) (evs : list Event) :
  create self snapname h = (r, evs) ->
  filter (fun c => c.2 = false) (take 3 (calls evs)) = [] ->
  requests evs = VM.create_plan render self snapname /\
  (length (VM.create_plan render self snapname) = 5 -> r = Ok true) /\
  (length (VM.create_plan render self snapname) < 5 -> r = Raise KeyError).
Proof.
  unfold VM.create_plan, VM.restore_request, VM.configure_network_request,
    VM.configure_options_request, VM.snapshot_request, VM.reboot_request.
  run_vm.
  repeat (first [vm_lookup self | vm_answer]; cbn);
    intros [= <- <-] Hpassed; try discriminate Hpassed; cbn;
    repeat split; try reflexivity; intros Hlen; exfalso; cbn in Hlen; lia.
Qed.

End VMProperties.

(** ** Both facades *)

(** C2.  For both facades [create] invokes its steps in the documented
    order and stops at the first one that fails.  The requests sent are a
    prefix of the plan; a request that failed is the last one sent and the
    run returns failure; and as long as no request failed the next step is
    invoked, so that a run without failure sends the whole plan and returns
    success (it raises where the configuration stops the plan short).  For a
    machine the gate holds of the first three steps (restore, configure
    network, configure options): once they passed, the snapshot and the
    reboot are both sent whatever the snapshot answered, and the run returns
    success. *)
Theorem create_is_fail_fast
    (gateway : Playbook.t -> list Event -> Request -> bool)
    (master_key : string) (bound_method : Cluster.t -> string)
    (render : Command -> string) :
  (forall (self : Cluster.t) (h : list Event) (r : outcome bool) (evs : list Event),
     Cluster.create gateway master_key bound_method self h = (r, evs) ->
     requests evs `prefix_of` Cluster.create_plan master_key self /\
     (forall l1 rq l2, calls evs = l1 ++ (rq, false) :: l2 -> l2 = [] /\ r = Ok false) /\
     (failed_calls evs = [] ->
        requests evs = Cluster.create_plan master_key self /\
        (length (Cluster.create_plan master_key self) = 6 -> r = Ok true) /\
        (length (Cluster.create_plan master_key self) < 6 -> r = Raise KeyError))) /\
  (forall (self : VM.t) (snapname : option string) (h : list Event)
          (r : outcome bool) (evs : list Event),
     VM.create gateway render self snapname h = (r, evs) ->
     requests evs `prefix_of` VM.create_plan render self snapname /\
     (forall l1 rq l2, calls evs = l1 ++ (rq, false) :: l2 ->
        length l1 < 3 -> l2 = [] /\ r = Ok false) /\
     (3 < length (calls evs) ->
        requests evs = VM.create_plan render self snapname /\
        length (calls evs) = 5 /\ r = Ok true) /\
     (filter (fun c => c.2 = false) (take 3 (calls evs)) = [] ->
        requests evs = VM.create_plan render self snapname /\
        (length (VM.create_plan render self snapname) = 5 -> r = Ok true) /\
        (length (VM.create_plan render self snapname) < 5 -> r = Raise KeyError))).
Proof.
  split.
  - intros self h r evs Hrun.
    destruct (cluster_create_fail_fast _ _ _ _ _ _ _ Hrun) as [Hplan Hgated].
    split; [exact Hplan|]. split.
    + intros l1 rq l2 Hcalls.
      eapply gated_last; [exact Hgated | exact Hcalls |].
      assert (Hlen : length (calls evs) <= 6).
      { destruct Hplan as [k Hk]. apply (f_equal length) in Hk.
        unfold requests in Hk. rewrite length_app, length_fmap in Hk.
        assert (length (Cluster.create_plan master_key self) <= 6); [|lia].
        unfold Cluster.create_plan.
        destruct (Cluster.attribute self "host"), (Cluster.attribute self "ip_address");
          cbn; lia. }
      rewrite Hcalls, length_app in Hlen. cbn in Hlen. lia.
    + exact (cluster_create_runs_the_plan _ _ _ _ _ _ _ Hrun).
  - intros self snapname h r evs Hrun.
    destruct (vm_create_fail_fast _ _ _ _ _ _ _ Hrun) as (Hplan & Hgated & Htail).
    split; [exact Hplan|]. split; [|split; [exact Htail|]].
    + intros l1 rq l2 Hcalls Hlen. eapply gated_last; eassumption.
    + exact (vm_create_runs_the_plan _ _ _ _ _ _ _ Hrun).
Qed.

Lemma create_is_fail_fast_witness :
  let built := Cluster.create Fixture.obliging Fixture.master_key Fixture.bound_method
                 Fixture.c1 [] in
  let stopped := VM.create (Fixture.failing "configure_network.yaml") Fixture.render
                   Fixture.v1 None [] in
  built.1 = Ok true /\ length (requests built.2) = 6 /\ stopped.1 = Ok false.
Proof.
  intros built stopped.
  destruct (create_is_fail_fast Fixture.obliging Fixture.master_key Fixture.bound_method
              Fixture.render) as [Hcluster _].
  destruct (create_is_fail_fast (Fixture.failing "configure_network.yaml")
              Fixture.master_key Fixture.bound_method Fixture.render) as [_ Hvm].
  destruct (Hcluster Fixture.c1 [] built.1 built.2) as (_ & _ & Hall).
  { vm_compute. reflexivity. }
  destruct Hall as (Hplan & Htrue & _).
  { vm_compute. reflexivity. }
  destruct (Hvm Fixture.v1 None [] stopped.1 stopped.2) as (_ & Hgated & _).
  { vm_compute. reflexivity. }
  split; [apply Htrue; vm_compute; reflexivity|].
  split; [rewrite Hplan; vm_compute; reflexivity|].
  destruct (Hgated [(nth 0 (requests stopped.2) (PingHosts (SStr EmptyString)), true)]
              (nth 1 (requests stopped.2) (PingHosts (SStr EmptyString))) [])
    as [_ Hr].
  - vm_compute. reflexivity.
  - cbn. lia.
  - exact Hr.
Defined.

(** ** The constructors *)

(** C10.  Built without a [dry_run] argument, a machine facade is in
    dry-run mode and a cluster facade is not, whatever the other constructor
    arguments: the two defaults are opposite. *)
Theorem facades_default_to_opposite_modes (the_config : Config)
    (vm_name cluster_name hostname : string) (verbose verbose' : option bool) :
  images_hostname the_config = Some hostname ->
  let cluster := Cluster.__init__ the_config cluster_name None verbose' in
  exists vm : VM.t,
    VM.__init__ the_config vm_name None verbose = Ok vm /\
    Playbook.dry_run (VM.base vm) = true /\
    Playbook.dry_run (Cluster.base cluster) = false /\
    Playbook.dry_run (VM.base vm) = negb (Playbook.dry_run (Cluster.base cluster)).
Proof.
  intros Hhost cluster. unfold VM.__init__. rewrite Hhost.
  eexists. repeat split.
Qed.

Lemma facades_default_to_opposite_modes_witness :
  VM.__init__ Fixture.config "v1" None None = Ok Fixture.v1 /\
  Playbook.dry_run (VM.base Fixture.v1) = true /\
  Playbook.dry_run (Cluster.base Fixture.c1) = false.
Proof.
  destruct (facades_default_to_opposite_modes Fixture.config "v1" "c1" "init" None None
              eq_refl) as (vm & Hvm & Hdry & Hreal & _).
  injection Hvm as <-. exact (conj eq_refl (conj Hdry Hreal)).
Defined.

(** ** Scenarios *)

(** C3, as the specification words it, fails on the cluster [c1] when the
    executor refuses the creation of the cluster: one wait has elapsed, not
    two. *)
Lemma cluster_create_step3_two_waits_counterexample :
  ~ (forall (r : outcome bool) (evs : list Event),
       Cluster.create (Fixture.failing "create cluster...") Fixture.master_key
         Fixture.bound_method Fixture.c1 [] = (r, evs) ->
       In (Cluster.create_cluster_request Fixture.c1 "node01", false) (calls evs) ->
       r = Ok false /\
       length (sleeps evs) = 2 /\
       requests evs = [ Cluster.reset_request Fixture.c1; Cluster.reboot_request Fixture.c1;
                        Cluster.create_cluster_request Fixture.c1 "node01" ]).
Proof.
  intros Hclaim.
  set (run := Cluster.create (Fixture.failing "create cluster...") Fixture.master_key
                Fixture.bound_method Fixture.c1 []).
  destruct (Hclaim run.1 run.2) as (_ & Hwaits & _).
  - vm_compute. reflexivity.
  - vm_compute. right. right. left. reflexivity.
  - vm_compute in Hwaits. discriminate Hwaits.
Qed.

Lemma cluster_create_step3_fails_witness :
  let run := Cluster.create (Fixture.failing "create cluster...") Fixture.master_key
               Fixture.bound_method Fixture.c1 [] in
  run.1 = Ok false /\ sleeps run.2 = [30] /\ numbered_steps run.2 = [1; 2; 3; 3].
Proof.
  intros run.
  destruct (cluster_create_step3_fails (Fixture.failing "create cluster...")
              Fixture.master_key Fixture.bound_method Fixture.c1 [] "node01" run.1 run.2)
    as (Hr & Hwaits & _ & Hsteps).
  - reflexivity.
  - vm_compute. reflexivity.
  - vm_compute. right. right. left. reflexivity.
  - exact (conj Hr (conj Hwaits Hsteps)).
Defined.

Lemma vm_create_waits_before_checking_restore_witness :
  let run := VM.create (Fixture.failing "restore vm...") Fixture.render Fixture.v1 None [] in
  run.1 = Ok false /\ sleeps run.2 = [40] /\ length (requests run.2) = 1.
Proof.
  intros run.
  set (restored := VM.restore (Fixture.failing "restore vm...") Fixture.v1
                     [EPrint "restore image into the host..."]).
  destruct (vm_create_waits_before_checking_restore (Fixture.failing "restore vm...")
              Fixture.render Fixture.v1 None [] false restored.2)
    as (r & rest & Hrun & Hfailed).
  - vm_compute. reflexivity.
  - destruct (Hfailed eq_refl) as [-> ->]. fold run in Hrun. rewrite Hrun.
    vm_compute. repeat split.
Defined.

Lemma vm_create_succeeds_after_three_steps_witness :
  let run := VM.create (Fixture.failing "snapshot vm v1...") Fixture.render
               Fixture.v1 None [] in
  run.1 = Ok true /\ length (failed_calls run.2) = 1.
Proof.
  intros run.
  set (gw := Fixture.failing "snapshot vm v1...").
  set (p0 := EPrint "restore image into the host...").
  set (p1 := EPrint "configure network into v1").
  set (p2 := EPrint "configure options into v1").
  set (e1 := (VM.restore gw Fixture.v1 [p0]).2).
  set (e2 := (VM.configure_network gw Fixture.render Fixture.v1
                ([] ++ p0 :: e1 ++ [ESleep 40; p1])).2).
  set (e3 := (VM.configure_options gw Fixture.v1
                ([] ++ p0 :: e1 ++ ESleep 40 :: p1 :: e2 ++ [p2])).2).
  destruct (vm_create_succeeds_after_three_steps gw Fixture.render Fixture.v1 None []
              e1 e2 e3) as (snapshot_rq & reboot_rq & ok4 & ok5 & _ & _ & Hrun).
  - vm_compute. reflexivity.
  - vm_compute. reflexivity.
  - vm_compute. reflexivity.
  - split; [exact (f_equal fst Hrun) | vm_compute; reflexivity].
Defined.


(** C7.  [Cluster.destroy], declared to return a [bool], and the two [ping]
    methods hand back [None] to their caller, even when every request passed. *)
Theorem cluster_destroy_returns_no_status :
  (Cluster.destroy Fixture.obliging Fixture.bound_method Fixture.c1 []).1 = Ok PyNone /\
  (Cluster.ping Fixture.obliging Fixture.c1 []).1 = Ok PyNone /\
  (VM.ping Fixture.obliging Fixture.v1 []).1 = Ok PyNone /\
  ~ is_status PyNone.
Proof.
  repeat split. intros [b Hb]. discriminate Hb.
Qed.

Lemma cluster_configure_nodes_reboots_iff_configured_witness :
  Cluster.configure_nodes (Fixture.failing "configure nodes...") Fixture.c1 []
    = (Ok false, [ECall (Cluster.configure_nodes_request Fixture.c1) false;
                  EPrint "it is not possible to configure nodes..."]).
Proof.
  destruct (cluster_configure_nodes_reboots_iff_configured
              (Fixture.failing "configure nodes...") Fixture.c1 []) as (Hfailed & _ & _).
  apply Hfailed. reflexivity.
Defined.

(** * Further properties *)

(** ** cluster.py *)

Section ClusterRuns.

Variable gateway : Playbook.t -> list Event -> Request -> bool.
Variable master_key : string.
Variable bound_method : Cluster.t -> string.
Variable storage_section : option (list (string * gmap string string)).

#[local] Abbreviation create := (Cluster.create gateway master_key bound_method).
#[local] Abbreviation storages := (Cluster.storages storage_section).
#[local] Abbreviation create_storage := (Cluster.create_storage gateway bound_method).

Ltac run_cluster :=
  unfold Cluster.create, Cluster.destroy, Cluster.configure_nodes, Cluster.create_nodes,
    Cluster.create_cluster, Cluster.create_storage, Cluster.reboot, Cluster.reset,
    Cluster.ping, Cluster.run_shell_on_master_host, Cluster.run_script_on_all,
    Cluster.run_shell_on_all, Cluster.cluster, Playbook.run_shell, Playbook.run,
    Playbook.ping_hosts, Playbook.call,
    when, print, sleep, emit, subscript, mbind, M_bind, bind, ret, raise.

Ltac answer :=
  match goal with
  | |- context [gateway ?p ?hh ?rq] =>
      lazymatch hh with
      | context [gateway _ _ _] => fail
      | _ => destruct (gateway p hh rq) eqn:?
      end
  end.

(** Every run of [create], by the two attributes and the answers. *)
Ltac cluster_runs self :=
  run_cluster;
  destruct (Cluster.attribute self "host") as [host|] eqn:Hhost;
  destruct (Cluster.attribute self "ip_address") as [ip|] eqn:Hip; cbn;
  repeat (answer; cbn); intros [= <- <-]; cbn.

(** X1.  [create] raises [KeyError] exactly when no request failed and the
    configuration lacks the master host or the joining address of the
    cluster; by then the nodes have been reset and rebooted and the wait of
    30 units has elapsed. *)
Theorem cluster_create_raises_iff_attribute_missing (self : Cluster.t) (h : list Event)
    (r : outcome bool) (evs : list Event) :
  create self h = (r, evs) ->
  (r = Raise KeyError <->
     failed_calls evs = [] /\
     (Cluster.attribute self "host" = None \/ Cluster.attribute self "ip_address" = None)) /\
  (r = Raise KeyError ->
     [Cluster.reset_request self; Cluster.reboot_request self] `prefix_of` requests evs /\
     In 30 (sleeps evs)).
Proof.
  cluster_runs self; (split; [split|]).
  all: try (intros [=]; fail).
  all: try (intros _; split; [reflexivity | auto]; fail).
  all: try (intros [Hf [Hm|Hm]]; solve [discriminate Hf | discriminate Hm | reflexivity]).
  all: intros _; (split; [eexists; reflexivity | cbn; auto]).
Qed.

(** X2.  [create] returns [True] only when the configuration names the
    master host and the joining address and the six requests of the plan
    were all sent and all passed, the reboot twice. *)
Theorem cluster_create_true_only_if_all_passed (self : Cluster.t) (h : list Event)
    (evs : list Event) :
  create self h = (Ok true, evs) ->
  exists host ip,
    Cluster.attribute self "host" = Some host /\
    Cluster.attribute self "ip_address" = Some ip /\
    calls evs =
      [ (Cluster.reset_request self, true);
        (Cluster.reboot_request self, true);
        (Cluster.create_cluster_request self host, true);
        (Cluster.create_nodes_request master_key self ip, true);
        (Cluster.configure_nodes_request self, true);
        (Cluster.reboot_request self, true) ].
Proof.
  run_cluster.
  destruct (Cluster.attribute self "host") as [host|] eqn:Hhost;
    destruct (Cluster.attribute self "ip_address") as [ip|] eqn:Hip; cbn;
    repeat (answer; cbn); intros [= <-].
  eexists _, _. repeat split.
Qed.

(** X3.  The waits of a run of [create] are fixed by the number of requests
    that passed: none after the reset, then 30, 10 and 5 units after the
    second, third and fourth request that passed; they never exceed 45
    units. *)
Theorem cluster_create_waits_by_progress (self : Cluster.t) (h : list Event)
    (r : outcome bool) (evs : list Event) :
  create self h = (r, evs) ->
  sleeps evs = take (passed evs - 1) [30; 10; 5] /\
  sum_list (sleeps evs) <= 45.
Proof.
  cluster_runs self; (split; [reflexivity | cbn; lia]).
Qed.

(** X4.  A run of [create] that returns [False] has narrated the steps
    1 to [k] in order and ends with a line that names step [k] again, the
    step that failed; nothing is printed or sent after that line. *)
Theorem cluster_create_failure_names_the_step (self : Cluster.t) (h : list Event)
    (evs : list Event) :
  create self h = (Ok false, evs) ->
  exists (k : nat) (line : string),
    1 <= k <= 5 /\
    numbered_steps evs = seq 1 k ++ [k] /\
    last evs = Some (EPrint line) /\
    step_tag line = Some k /\
    length (failed_calls evs) = 1.
Proof.
  run_cluster.
  destruct (Cluster.attribute self "host") as [host|] eqn:Hhost;
    destruct (Cluster.attribute self "ip_address") as [ip|] eqn:Hip; cbn;
    repeat (answer; cbn); intros [= <-]; cbn.
  all: eexists _, _; refine (conj _ (conj _ (conj _ (conj _ _)))); cycle 2;
    [reflexivity | vm_compute; reflexivity | reflexivity | vm_compute; lia | reflexivity].
Qed.

Lemma comprehension_cons {A B} (f : A -> M B) (a : A) (l : list A) (h : list Event) :
  Cluster.comprehension f (a :: l) h =
  match f a h with
  | (Ok b, e1) =>
      match Cluster.comprehension f l (h ++ e1) with
      | (Ok bs, e2) => (Ok (b :: bs), e1 ++ e2 ++ [])
      | (Raise x, e2) => (Raise x, e1 ++ e2)
      end
  | (Raise x, e1) => (Raise x, e1)
  end.
Proof.
  cbn. unfold mbind, M_bind, bind, ret.
  destruct (f a h) as [[b|x] e1]; [|reflexivity].
  destruct (Cluster.comprehension f l (h ++ e1)) as [[bs|x] e2]; reflexivity.
Qed.

Lemma storage_entry_run (item : string * gmap string string) (h : list Event) :
  Cluster.storage_entry item h =
  match item.2 !! "server", item.2 !! "path" with
  | Some server, Some path =>
      (Ok {[ "name" := item.1; "server" := server; "path" := path ]}, [])
  | _, _ => (Raise KeyError, [])
  end.
Proof.
  unfold Cluster.storage_entry, subscript, mbind, M_bind, bind, ret, raise.
  destruct (item.2 !! "server"); [destruct (item.2 !! "path")|]; reflexivity.
Qed.

Lemma comprehension_storage_entry (l : list (string * gmap string string)) (h : list Event)
    (r : outcome (list (gmap string string))) (evs : list Event) :
  Cluster.comprehension Cluster.storage_entry l h = (r, evs) ->
  evs = [] /\
  (forall out, r = Ok out -> Forall2 listed l out) /\
  (r = Raise KeyError <-> Exists incomplete l).
Proof.
  revert h r evs. induction l as [|item l IH]; intros h r evs.
  - cbn. intros [= <- <-]. split; [reflexivity|]. split.
    + intros out [= <-]. constructor.
    + split; [discriminate | intros H; inversion H].
  - rewrite comprehension_cons, storage_entry_run.
    destruct (item.2 !! "server") as [server|] eqn:Hserver;
      [destruct (item.2 !! "path") as [path|] eqn:Hpath|].
    + destruct (Cluster.comprehension Cluster.storage_entry l (h ++ []))
        as [[out'|[]] e'] eqn:Hrest;
        destruct (IH _ _ _ Hrest) as (-> & Hout & Hraise); cbn; intros [= <- <-].
      * split; [reflexivity|]. split.
        -- intros out [= <-]. constructor; [|apply Hout; reflexivity].
           exists server, path. repeat split; assumption.
        -- split; [discriminate|]. intros H. inversion H as [? ? [Hi|Hi]|? ? Hl]; subst.
           ++ rewrite Hserver in Hi. discriminate Hi.
           ++ rewrite Hpath in Hi. discriminate Hi.
           ++ apply Hraise in Hl. discriminate Hl.
      * split; [reflexivity|]. split; [discriminate|].
        split; [|reflexivity]. intros _. apply Exists_cons_tl. apply Hraise. reflexivity.
    + intros [= <- <-]. split; [reflexivity|]. split; [discriminate|].
      split; [|reflexivity]. intros _. apply Exists_cons_hd. right. assumption.
    + intros [= <- <-]. split; [reflexivity|]. split; [discriminate|].
      split; [|reflexivity]. intros _. apply Exists_cons_hd. left. assumption.
Qed.

Lemma storages_returns_listed (self : Cluster.t) (h : list Event)
    (out : list (gmap string string)) (evs : list Event) :
  storages self h = (Ok out, evs) ->
  exists l, storage_section = Some l /\ evs = [] /\ Forall2 listed l out.
Proof.
  unfold Cluster.storages, subscript, mbind, M_bind, bind, raise, ret.
  destruct storage_section as [l|]; cbn; [|discriminate].
  destruct (Cluster.comprehension Cluster.storage_entry l (h ++ [])) as [r e] eqn:Hrun.
  intros [= -> <-].
  destruct (comprehension_storage_entry _ _ _ _ Hrun) as (-> & Hout & _).
  exists l. repeat split. apply Hout. reflexivity.
Qed.

(** X5.  When [storages] returns, it has printed and sent nothing and its
    list has one dictionary for each storage of the configuration, in the
    order of the section, holding the name, the server and the path of that
    storage and no other key. *)
Theorem cluster_storages_lists_every_storage (self : Cluster.t) (h : list Event)
    (out : list (gmap string string)) (evs : list Event) :
  storages self h = (Ok out, evs) ->
  exists l,
    storage_section = Some l /\
    evs = [] /\
    Forall2 listed l out /\
    length out = length l.
Proof.
  intros Hrun. destruct (storages_returns_listed _ _ _ _ Hrun) as (l & Hl & He & Hall).
  exists l. repeat split; try assumption.
  symmetry. eapply Forall2_length. exact Hall.
Qed.

(** X6.  [storages] raises [KeyError] exactly when the configuration has no
    storage section or one of its storages lacks the server or the path; one
    incomplete storage hides all the others. *)
Theorem cluster_storages_raises_iff_incomplete (self : Cluster.t) (h : list Event) :
  (storages self h).1 = Raise KeyError <->
  match storage_section with
  | None => True
  | Some l => Exists incomplete l
  end.
Proof.
  unfold Cluster.storages, subscript, mbind, M_bind, bind, raise, ret.
  destruct storage_section as [l|]; cbn; [|tauto].
  destruct (Cluster.comprehension Cluster.storage_entry l (h ++ [])) as [r e] eqn:Hrun.
  destruct (comprehension_storage_entry _ _ _ _ Hrun) as (_ & _ & Hraise).
  destruct r; cbn; exact Hraise.
Qed.

Lemma listed_lookups (item : string * gmap string string) (d : gmap string string) :
  listed item d ->
  exists server path,
    d !! "name" = Some item.1 /\ d !! "server" = Some server /\ d !! "path" = Some path /\
    item.2 !! "server" = Some server /\ item.2 !! "path" = Some path.
Proof.
  intros (server & path & Hserver & Hpath & ->). exists server, path.
  repeat split; try assumption; reflexivity.
Qed.

(** X7.  Every dictionary [storages] returns is accepted by
    [create_storage]: on a cluster whose master host is configured it raises
    nothing, prints one line and sends one command to the master host, which
    adds the storage under its name with the server and the path of the
    configuration. *)
Theorem cluster_create_storage_accepts_listed_storages (self : Cluster.t)
    (h h' : list Event) (out : list (gmap string string)) (evs : list Event)
    (d : gmap string string) (host : string) :
  storages self h = (Ok out, evs) ->
  In d out ->
  Cluster.attribute self "host" = Some host ->
  exists (l : list (string * gmap string string)) (item : string * gmap string string)
         (server path : string) (ok : bool),
    storage_section = Some l /\ In item l /\
    item.2 !! "server" = Some server /\ item.2 !! "path" = Some path /\
    create_storage self d h'
      = (Ok ok,
         [ EPrint ("add storage " +:+ item.1 +:+ " into the cluster " +:+ bound_method self
                   +:+ "...");
           ECall (RunShell (SStr host)
                    (Cluster.create_storage_command item.1 server path)) ok ]).
Proof.
  intros Hrun Hin Hhost.
  destruct (storages_returns_listed _ _ _ _ Hrun) as (l & Hl & _ & Hall).
  apply list_elem_of_In, list_elem_of_lookup in Hin. destruct Hin as [i Hi].
  destruct (Forall2_lookup_r _ _ _ _ _ Hall Hi) as (item & Hitem & Hlisted).
  destruct (listed_lookups _ _ Hlisted) as (server & path & Hn & Hs & Hp & His & Hip).
  exists l, item, server, path. eexists.
  split; [exact Hl|].
  split; [apply list_elem_of_In, list_elem_of_lookup; exists i; exact Hitem|].
  split; [exact His|]. split; [exact Hip|].
  run_cluster. rewrite Hn, Hs, Hp, Hhost. cbn. reflexivity.
Qed.

(** X8.  [create_storage] raises [KeyError] exactly when the dictionary
    lacks the name, the server or the path, or the configuration lacks the
    master host; with an incomplete dictionary nothing is printed or sent,
    and in every case at most one request is sent, to the master host. *)
Theorem cluster_create_storage_raises_iff_key_missing (self : Cluster.t)
    (storage : gmap string string) (h : list Event)
    (r : outcome bool) (evs : list Event) :
  create_storage self storage h = (r, evs) ->
  let incomplete_storage :=
    storage !! "name" = None \/ storage !! "server" = None \/ storage !! "path" = None in
  (r = Raise KeyError <-> incomplete_storage \/ Cluster.attribute self "host" = None) /\
  (incomplete_storage -> evs = []) /\
  length (requests evs) <= 1 /\
  (forall rq, In rq (requests evs) ->
     exists host, Cluster.attribute self "host" = Some host /\ target_of rq = SStr host).
Proof.
  run_cluster.
  destruct (storage !! "name") as [name|]; cbn;
    [destruct (storage !! "server") as [server|]; cbn;
       [destruct (storage !! "path") as [path|]; cbn;
          [destruct (Cluster.attribute self "host") as [host|]; cbn|]|]|];
    intros [= <- <-]; cbn; repeat split.
  all: try discriminate.
  all: try tauto.
  all: try lia.
  all: try (intros [[H|[H|H]]|H]; discriminate H).
  all: try (intros [H|[H|H]]; discriminate H).
  all: try (intros rq [<-|[]]; eexists; split; reflexivity).
Qed.

(** X21.  Whatever happens, [create] addresses the whole cluster, by its
    name, except for the creation of the cluster, which goes to the master
    host of the configuration; it never pings. *)
Theorem cluster_create_targets (self : Cluster.t) (h : list Event)
    (r : outcome bool) (evs : list Event) :
  create self h = (r, evs) ->
  Forall (fun rq =>
            match rq with
            | RunShell target command =>
                if decide (label command = "create cluster...")
                then Cluster.attribute self "host" ≫= (fun host => Some (SStr host))
                       = Some target
                else target = SStr (Cluster.cluster_name self)
            | RunScript _ target _ => target = SStr (Cluster.cluster_name self)
            | PingHosts _ => False
            end) (requests evs).
Proof.
  cluster_runs self; repeat constructor.
Qed.

End ClusterRuns.

(** ** vm.py *)

Section VMRuns.

Variable gateway : Playbook.t -> list Event -> Request -> bool.
Variable render : Command -> string.

#[local] Abbreviation restore := (VM.restore gateway).
#[local] Abbreviation snapshot := (VM.snapshot gateway).
#[local] Abbreviation reboot := (VM.reboot gateway).
#[local] Abbreviation configure_network := (VM.configure_network gateway render).
#[local] Abbreviation configure_options := (VM.configure_options gateway).
#[local] Abbreviation destroy := (VM.destroy gateway).
#[local] Abbreviation create := (VM.create gateway render).

Ltac run_vm_steps :=
  unfold VM.restore, VM.configure_network, VM.configure_options, VM.snapshot, VM.reboot,
    VM.destroy, VM.ping, VM.image, VM.run_shell_on_host, VM.run_shell_on_vm, VM.vm,
    Playbook.run_shell, Playbook.run, Playbook.ping_hosts, Playbook.call,
    when, print, sleep, emit, subscript, mbind, M_bind, bind, ret, raise.

Ltac vm_answer :=
  match goal with
  | |- context [gateway ?p ?hh ?rq] =>
      lazymatch hh with
      | context [gateway _ _ _] => fail
      | _ => destruct (gateway p hh rq) eqn:?
      end
  end.

Ltac vm_lookup self :=
  match goal with
  | |- context [match VM.attribute self ?k with _ => _ end] =>
      destruct (VM.attribute self k) eqn:?
  | |- context [match images_paths ?c !! ?k with _ => _ end] =>
      destruct (images_paths c !! k) eqn:?
  end.

(** Every run of [create], by the lookups and the answers. *)
Ltac vm_runs self :=
  unfold VM.create_plan, VM.restore_request, VM.configure_network_request,
    VM.configure_options_request, VM.snapshot_request, VM.reboot_request, VM.create;
  run_vm_steps;
  repeat (first [vm_lookup self | vm_answer]; cbn).

(** X9.  Each operation on a machine reads the configuration first and then
    sends exactly one request: when a key it needs is missing it raises
    [KeyError] with nothing sent, otherwise its result is the answer to that
    request. *)
Theorem vm_steps_look_up_then_call (self : VM.t) (name : string) (h : list Event) :
  let sends := lookup_then_call gateway (VM.base self) in
  restore self h = sends (VM.restore_request self) h /\
  configure_network self h = sends (VM.configure_network_request render self) h /\
  configure_options self h = sends (VM.configure_options_request self) h /\
  snapshot self name h = sends (VM.snapshot_request self name) h /\
  reboot self h = sends (VM.reboot_request self) h /\
  destroy self h = sends (VM.destroy_request self) h.
Proof.
  unfold lookup_then_call, VM.restore_request, VM.configure_network_request,
    VM.configure_options_request, VM.snapshot_request, VM.reboot_request,
    VM.destroy_request.
  run_vm_steps. cbn.
  repeat split; repeat (vm_lookup self; cbn); rewrite ?app_nil_r; reflexivity.
Qed.

(** X10.  [create] raises [KeyError] exactly when no request failed and some
    request of the plan cannot be built from the configuration; the requests
    sent before are those of the plan that could be built. *)
Theorem vm_create_raises_iff_key_missing (self : VM.t) (snapname : option string)
    (h : list Event) (r : outcome bool) (evs : list Event) :
  create self snapname h = (r, evs) ->
  (r = Raise KeyError <->
     failed_calls evs = [] /\ length (VM.create_plan render self snapname) < 5) /\
  (r = Raise KeyError -> requests evs = VM.create_plan render self snapname).
Proof.
  vm_runs self; intros [= <- <-]; cbn; (split; [split|]).
  all: try (intros [=]; fail).
  all: try (intros _; split; [reflexivity | lia]; fail).
  all: try (intros [Hf Hl]; solve [discriminate Hf | exfalso; lia | reflexivity]).
  all: intros _; reflexivity.
Qed.

(** X11.  [create] returns [True] exactly when five requests were sent and
    the first three passed; it returns [False] exactly when one of the first
    three requests failed, and that request is then the last one. *)
Theorem vm_create_result_by_gated_steps (self : VM.t) (snapname : option string)
    (h : list Event) (r : outcome bool) (evs : list Event) :
  create self snapname h = (r, evs) ->
  (r = Ok true <->
     length (calls evs) = 5 /\ (take 3 (calls evs)).*2 = [true; true; true]) /\
  (r = Ok false <->
     exists rq, last (calls evs) = Some (rq, false) /\ length (calls evs) <= 3).
Proof.
  vm_runs self; intros [= <- <-]; cbn; (split; split).
  all: try (intros [=]; fail).
  all: try (intros [Hl Ht]; solve [discriminate Hl | discriminate Ht]).
  all: try (intros (rq & Hlast & Hlen); solve [discriminate Hlast | exfalso; lia]).
  all: try (intros _; split; reflexivity).
  all: try (intros _; eexists; split; [reflexivity | lia]).
  all: try reflexivity.
Qed.

(** X12.  A run of [create] waits exactly once, 40 units, unless the restore
    request cannot be built, in which case it does not wait at all: the wait
    does not depend on any answer. *)
Theorem vm_create_waits_once (self : VM.t) (snapname : option string)
    (h : list Event) (r : outcome bool) (evs : list Event) :
  create self snapname h = (r, evs) ->
  sleeps evs = match VM.restore_request self with Some _ => [40] | None => [] end.
Proof.
  vm_runs self; intros [= <- <-]; reflexivity.
Qed.

(** X13.  Once [restore] has returned, with any result, the configuration
    holds what [snapshot], [reboot] and [destroy] read: none of them raises,
    each sends its one request to the host [restore] addressed. *)
Theorem vm_restore_enables_snapshot_reboot_destroy (self : VM.t) (h : list Event)
    (ok : bool) (e : list Event) :
  restore self h = (Ok ok, e) ->
  exists vmid host command,
    e = [ECall (RunShell host command) ok] /\
    forall (name : string) (h' : list Event),
      (exists ok', snapshot self name h'
         = (Ok ok', [ECall (RunShell host (VM.snapshot_command self vmid name)) ok'])) /\
      (exists ok', reboot self h'
         = (Ok ok', [ECall (RunShell host (VM.reboot_command self vmid)) ok'])) /\
      (exists ok', destroy self h'
         = (Ok ok', [ECall (RunShell host (VM.destroy_command self vmid)) ok'])).
Proof.
  run_vm_steps. repeat (vm_lookup self; cbn); try discriminate.
  intros [= <- <-]. eexists _, _, _. split; [reflexivity|].
  intros name h'. repeat split; eexists; reflexivity.
Qed.

(** X14.  A device configured as an integer is never taken for the empty
    string: [configure_options] then always sends the PCI passthrough
    instruction, before the boot-on-startup instruction. *)
Theorem vm_configure_options_integer_device (self : VM.t) (h : list Event)
    (vmid host : scalar) (device : Z) :
  VM.attribute self "vmid" = Some vmid ->
  VM.attribute self "pci" = Some (SInt device) ->
  VM.attribute self "host" = Some host ->
  exists (command : Command) (ok : bool),
    configure_options self h = (Ok ok, [ECall (RunShell host command) ok]) /\
    instructions command
      = [ "qm set " +:+ format vmid +:+ " -hostpci0 " +:+ pretty device;
          "qm set " +:+ format vmid +:+ " --onboot 1" ].
Proof.
  intros Hvmid Hpci Hhost. run_vm_steps. rewrite Hvmid, Hpci, Hhost. cbn.
  eexists _, _. split; reflexivity.
Qed.

(** X15.  The device key is mandatory: on a machine whose configuration has
    no [pci] entry [create] never returns [True], and it sends at most the
    restore and the network configuration before it stops. *)
Theorem vm_create_needs_pci_key (self : VM.t) (snapname : option string)
    (h : list Event) (r : outcome bool) (evs : list Event) :
  VM.attribute self "pci" = None ->
  create self snapname h = (r, evs) ->
  r <> Ok true /\
  length (requests evs) <= 2 /\
  (failed_calls evs = [] -> r = Raise KeyError).
Proof.
  intros Hpci. vm_runs self; try congruence; intros [= <- <-]; cbn;
    repeat split; try discriminate; try lia; try (intros _; reflexivity).
Qed.


End VMRuns.

(** ** reservation_manager.py *)

Section ReservationRuns.

Import Reservation.

Variable subprocess_run : list string -> Reservation.completion.
Variable help : string.

#[local] Abbreviation run_command := (Reservation.run_command subprocess_run).
#[local] Abbreviation create_reservation := (Reservation.create_reservation subprocess_run).
#[local] Abbreviation delete_reservation := (Reservation.delete_reservation subprocess_run).


(** X17.  [run_command] announces the command, its words joined by spaces,
    and runs it once; it returns [True] exactly when the process exited with
    status zero and [False] exactly when it exited with another status, in
    which case everything after the announcement goes to the error stream;
    any other exception is let through. *)
Theorem run_command_reports_exit_status (command : list string) :
  let run := run_command command in
  execs run.2 = [command] /\
  head run.2 = Some (Write Stdout ("Executing: " +:+ String.concat " " command)) /\
  (run.1 = Returned true <-> exists out err, subprocess_run command = Completed out err) /\
  (run.1 = Returned false <->
     exists e out err, subprocess_run command = CalledProcessError e out err) /\
  (run.1 = Returned false ->
     written Stdout run.2 = ["Executing: " +:+ String.concat " " command] /\
     exists e, In ("Error executing command: " +:+ e) (written Stderr run.2)) /\
  (run.1 = Propagated <-> subprocess_run command = OtherError).
Proof.
  cbv zeta. unfold Reservation.run_command.
  destruct (subprocess_run command) as [out err|e out err|] eqn:Hrun; cbn;
    try (destruct out, err; cbn);
    repeat split; try discriminate; try reflexivity; eauto.
  all: try (intros (? & ? & [=]); fail).
  all: try (intros (? & ? & ? & [=]); fail).
  all: try (eexists; left; reflexivity).
Qed.

(** X18.  [create_reservation] and [delete_reservation] run exactly the
    command they build; unless the process could not be run at all, they end
    with one verdict on the standard output, the success line exactly when
    the process exited with status zero and the failure line otherwise, and
    they return nothing in both cases. *)
Theorem reservation_verdict_follows_exit_status (args : namespace) :
  let created := create_reservation args in
  let deleted := delete_reservation args in
  execs created.2 = [Reservation.create_command args] /\
  execs deleted.2 = [Reservation.delete_command args] /\
  (last created.2
     = Some (Write Stdout ("Reservation '" +:+ name args +:+ "' created successfully."))
   <-> exists out err, subprocess_run (Reservation.create_command args) = Completed out err) /\
  (last created.2 = Some (Write Stdout ("Failed to create reservation '" +:+ name args +:+ "'."))
   <-> exists e out err,
         subprocess_run (Reservation.create_command args) = CalledProcessError e out err) /\
  (last deleted.2
     = Some (Write Stdout ("Reservation '" +:+ name args +:+ "' deleted successfully."))
   <-> exists out err, subprocess_run (Reservation.delete_command args) = Completed out err) /\
  (last deleted.2 = Some (Write Stdout ("Failed to delete reservation '" +:+ name args +:+ "'."))
   <-> exists e out err,
         subprocess_run (Reservation.delete_command args) = CalledProcessError e out err) /\
  (created.1 = Propagated <-> subprocess_run (Reservation.create_command args) = OtherError) /\
  (deleted.1 = Propagated <-> subprocess_run (Reservation.delete_command args) = OtherError).
Proof.
  cbv zeta.
  unfold Reservation.create_reservation, Reservation.delete_reservation,
    Reservation.run_command.
  destruct (subprocess_run (Reservation.create_command args)) as [o1 e1|m1 o1 e1|];
    destruct (subprocess_run (Reservation.delete_command args)) as [o2 e2|m2 o2 e2|].
  all: try (destruct o1, e1); try (destruct o2, e2); cbn.
  all: repeat split; try discriminate; try reflexivity; eauto.
  all: try (intros (? & ? & [=]); fail).
  all: try (intros (? & ? & ? & [=]); fail).
Qed.

(** X19.  The command of [create_reservation] is the nine fixed words and
    attributes, followed by a tenth word for the flags exactly when flags
    were given and are not the empty string. *)
Theorem create_command_flags_are_optional (args : namespace) :
  let cmd := Reservation.create_command args in
  take 9 cmd =
    [ "sudo"; "scontrol"; "create"; "reservation";
      "ReservationName=" +:+ name args; "StartTime=" +:+ starttime args;
      "Duration=" +:+ duration args; "Nodes=" +:+ nodes args; "Users=" +:+ users args ] /\
  (forall f, flags args = Some f -> f <> EmptyString -> drop 9 cmd = ["Flags=" +:+ f]) /\
  (flags args = None \/ flags args = Some EmptyString -> drop 9 cmd = []).
Proof.
  cbv zeta. unfold Reservation.create_command.
  destruct (flags args) as [[|c given]|]; cbn; repeat split.
  all: try (intros f [= <-] H; solve [destruct H; reflexivity | reflexivity]).
  all: try (intros [H|H]; discriminate H).
  all: try (intros f H; discriminate H).
Qed.

(** X20.  [main] runs nothing when the parser leaves with [SystemExit],
    whose status it passes on; otherwise it runs exactly one command for the
    sub-commands [create] and [delete] and only prints the help when none
    was given.  It lets an exception through exactly when the process could
    not be run, so a reservation refused with a non-zero exit status still
    lets [main] return normally. *)
Theorem main_runs_at_most_one_command (parse_args : parsing) :
  let run := Reservation.main subprocess_run help parse_args in
  (forall status to text,
     parse_args = SystemExit status to text -> run = (Exited status, [Write to text])) /\
  (forall args, parse_args = Parsed args ->
     (command args = Some Create -> execs run.2 = [Reservation.create_command args]) /\
     (command args = Some Delete -> execs run.2 = [Reservation.delete_command args]) /\
     (command args = None -> run = (Finished, [Write Stdout help]))) /\
  length (execs run.2) <= 1 /\
  (run.1 = Raised <-> exists cmd, execs run.2 = [cmd] /\ subprocess_run cmd = OtherError) /\
  (forall status,
     run.1 = Exited status <-> exists to text, parse_args = SystemExit status to text).
Proof.
  cbv zeta.
  unfold Reservation.main, Reservation.statement, Reservation.create_reservation,
    Reservation.delete_reservation, Reservation.run_command.
  destruct parse_args as [args|status to text].
  - repeat case_decide.
    + destruct (subprocess_run (Reservation.create_command args)) as [o e|m o e|] eqn:Hrun;
        try (destruct o, e); cbn; repeat split; try congruence; try lia.
      all: try (intros (cmd & [= <-] & Hother); congruence).
      all: try (intros (? & ? & [=]); fail).
      all: try (intros [=]; fail).
      all: intros _; eexists; split; [reflexivity | exact Hrun].
    + destruct (subprocess_run (Reservation.delete_command args)) as [o e|m o e|] eqn:Hrun;
        try (destruct o, e); cbn; repeat split; try congruence; try lia.
      all: try (intros (cmd & [= <-] & Hother); congruence).
      all: try (intros (? & ? & [=]); fail).
      all: try (intros [=]; fail).
      all: intros _; eexists; split; [reflexivity | exact Hrun].
    + cbn. repeat split; try congruence; try lia.
      all: try (intros (cmd & [=] & _); fail).
      all: try (intros (? & ? & [=]); fail).
      all: try (intros [=]; fail).
  - cbn. repeat split; try congruence; try lia.
    all: try (intros (cmd & [=] & _); fail).
    all: try (intros [= <-]; eexists _, _; reflexivity).
    all: try (intros (? & ? & [= <-]); reflexivity).
    all: try (intros [=]; fail).
Qed.

End ReservationRuns.

(** ** The further properties on the samples *)

Lemma cluster_create_raises_iff_attribute_missing_witness :
  let run := Cluster.create Fixture.obliging Fixture.master_key Fixture.bound_method
               Sample.c2 [] in
  run.1 = Raise KeyError /\ length (requests run.2) = 2 /\ In 30 (sleeps run.2).
Proof.
  intros run.
  destruct (cluster_create_raises_iff_attribute_missing Fixture.obliging Fixture.master_key
              Fixture.bound_method Sample.c2 [] run.1 run.2) as [Hiff Hdone].
  - vm_compute. reflexivity.
  - assert (Hr : run.1 = Raise KeyError).
    { apply Hiff. split; [|left]; vm_compute; reflexivity. }
    destruct (Hdone Hr) as [_ Hwait].
    split; [exact Hr|]. split; [vm_compute; reflexivity | exact Hwait].
Defined.

Lemma cluster_create_true_only_if_all_passed_witness :
  length (calls (Cluster.create Fixture.obliging Fixture.master_key Fixture.bound_method
                   Fixture.c1 []).2) = 6.
Proof.
  destruct (cluster_create_true_only_if_all_passed Fixture.obliging Fixture.master_key
              Fixture.bound_method Fixture.c1 []
              (Cluster.create Fixture.obliging Fixture.master_key Fixture.bound_method
                 Fixture.c1 []).2) as (host & ip & _ & _ & Hcalls).
  - vm_compute. reflexivity.
  - rewrite Hcalls. reflexivity.
Defined.

Lemma cluster_create_waits_by_progress_witness :
  sleeps (Cluster.create (Fixture.failing "add_node.yaml") Fixture.master_key
            Fixture.bound_method Fixture.c1 []).2 = [30; 10].
Proof.
  set (run := Cluster.create (Fixture.failing "add_node.yaml") Fixture.master_key
                Fixture.bound_method Fixture.c1 []).
  destruct (cluster_create_waits_by_progress (Fixture.failing "add_node.yaml")
              Fixture.master_key Fixture.bound_method Fixture.c1 [] run.1 run.2)
    as [Hwaits _].
  - vm_compute. reflexivity.
  - rewrite Hwaits. vm_compute. reflexivity.
Defined.

Lemma cluster_create_failure_names_the_step_witness :
  exists line : string,
    last (Cluster.create (Fixture.failing "reboot.yaml") Fixture.master_key
            Fixture.bound_method Fixture.c1 []).2 = Some (EPrint line) /\
    step_tag line = Some 2.
Proof.
  set (run := Cluster.create (Fixture.failing "reboot.yaml") Fixture.master_key
                Fixture.bound_method Fixture.c1 []).
  destruct (cluster_create_failure_names_the_step (Fixture.failing "reboot.yaml")
              Fixture.master_key Fixture.bound_method Fixture.c1 [] run.2)
    as (k & line & _ & _ & Hlast & Htag & _).
  - vm_compute. reflexivity.
  - exists line. split; [exact Hlast|].
    assert (Hline : Some (EPrint line)
                    = Some (EPrint "[step 2] it is not possible to reboot all nodes")).
    { rewrite <- Hlast. vm_compute. reflexivity. }
    injection Hline as ->. vm_compute. reflexivity.
Defined.

Lemma cluster_storages_lists_every_storage_witness :
  exists out, Cluster.storages Sample.storage_section Fixture.c1 [] = (Ok out, []) /\
              length out = 2.
Proof.
  set (run := Cluster.storages Sample.storage_section Fixture.c1 []).
  assert (Hrun : exists out, run = (Ok out, [])) by (eexists; vm_compute; reflexivity).
  destruct Hrun as [out Hrun]. exists out. split; [exact Hrun|].
  destruct (cluster_storages_lists_every_storage Sample.storage_section Fixture.c1 []
              out [] Hrun) as (l & Hl & _ & _ & Hlen).
  injection Hl as <-. exact Hlen.
Defined.

Lemma cluster_create_storage_accepts_listed_storages_witness :
  exists ok evs,
    Cluster.create_storage Fixture.obliging Fixture.bound_method Fixture.c1
      Sample.storage01 [] = (Ok ok, evs) /\ length (requests evs) = 1.
Proof.
  assert (Hrun : exists out, Cluster.storages Sample.storage_section Fixture.c1 []
                             = (Ok out, []) /\ In Sample.storage01 out).
  { eexists. split; [vm_compute; reflexivity|]. left. apply map_eq. intros k.
    vm_compute. reflexivity. }
  destruct Hrun as (out & Hrun & Hin).
  destruct (cluster_create_storage_accepts_listed_storages Fixture.obliging
              Fixture.bound_method Sample.storage_section Fixture.c1 [] [] out []
              Sample.storage01 "node01" Hrun Hin eq_refl)
    as (l & item & server & path & ok & _ & _ & _ & _ & Hcreate).
  eexists _, _. split; [exact Hcreate | reflexivity].
Defined.

Lemma cluster_create_storage_raises_iff_key_missing_witness :
  Cluster.create_storage Fixture.obliging Fixture.bound_method Fixture.c1
    Sample.pathless [] = (Raise KeyError, []).
Proof.
  set (run := Cluster.create_storage Fixture.obliging Fixture.bound_method Fixture.c1
                Sample.pathless []).
  destruct (cluster_create_storage_raises_iff_key_missing Fixture.obliging
              Fixture.bound_method Fixture.c1 Sample.pathless [] run.1 run.2)
    as (Hraise & Hsilent & _).
  - vm_compute. reflexivity.
  - assert (Hmissing : Sample.pathless !! "name" = None \/
                       Sample.pathless !! "server" = None \/
                       Sample.pathless !! "path" = None).
    { right. right. vm_compute. reflexivity. }
    rewrite (surjective_pairing run).
    rewrite (proj2 Hraise (or_introl Hmissing)), (Hsilent Hmissing). reflexivity.
Defined.

Lemma vm_create_raises_iff_key_missing_witness :
  let run := VM.create Fixture.obliging Fixture.render Sample.v2 None [] in
  run.1 = Raise KeyError /\ length (requests run.2) = 2.
Proof.
  intros run.
  destruct (vm_create_raises_iff_key_missing Fixture.obliging Fixture.render Sample.v2
              None [] run.1 run.2) as [Hiff Hplan].
  - vm_compute. reflexivity.
  - assert (Hr : run.1 = Raise KeyError).
    { apply Hiff. split; vm_compute; [reflexivity | lia]. }
    split; [exact Hr|]. rewrite (Hplan Hr). vm_compute. reflexivity.
Defined.

Lemma vm_create_result_by_gated_steps_witness :
  (VM.create (Fixture.failing "reboot vm v1...") Fixture.render Fixture.v1 None []).1
    = Ok true.
Proof.
  set (run := VM.create (Fixture.failing "reboot vm v1...") Fixture.render Fixture.v1
                None []).
  destruct (vm_create_result_by_gated_steps (Fixture.failing "reboot vm v1...")
              Fixture.render Fixture.v1 None [] run.1 run.2) as [Htrue _].
  - vm_compute. reflexivity.
  - apply Htrue. split; vm_compute; reflexivity.
Defined.

Lemma vm_create_waits_once_witness :
  sleeps (VM.create (Fixture.failing "configure_network.yaml") Fixture.render
            Fixture.v1 None []).2 = [40] /\
  sleeps (VM.create Fixture.obliging Fixture.render Sample.v3 None []).2 = [].
Proof.
  split.
  - rewrite (vm_create_waits_once (Fixture.failing "configure_network.yaml")
               Fixture.render Fixture.v1 None []
               (VM.create (Fixture.failing "configure_network.yaml") Fixture.render
                  Fixture.v1 None []).1 _ (surjective_pairing _)).
    vm_compute. reflexivity.
  - rewrite (vm_create_waits_once Fixture.obliging Fixture.render Sample.v3 None []
               (VM.create Fixture.obliging Fixture.render Sample.v3 None []).1 _
               (surjective_pairing _)).
    vm_compute. reflexivity.
Defined.

Lemma vm_restore_enables_snapshot_reboot_destroy_witness :
  exists ok evs,
    VM.destroy (Fixture.failing "restore vm...") Fixture.v1 [] = (Ok ok, evs) /\
    length (requests evs) = 1.
Proof.
  set (restored := VM.restore (Fixture.failing "restore vm...") Fixture.v1 []).
  destruct (vm_restore_enables_snapshot_reboot_destroy (Fixture.failing "restore vm...")
              Fixture.v1 [] false restored.2) as (vmid & host & command & _ & Hall).
  - vm_compute. reflexivity.
  - destruct (Hall "base" []) as (_ & _ & ok & Hdestroy).
    eexists _, _. split; [exact Hdestroy | reflexivity].
Defined.

Lemma vm_configure_options_integer_device_witness :
  exists command ok,
    VM.configure_options Fixture.obliging Sample.v3 []
      = (Ok ok, [ECall (RunShell (SStr "node02") command) ok]) /\
    instructions command = ["qm set 300 -hostpci0 0"; "qm set 300 --onboot 1"].
Proof.
  destruct (vm_configure_options_integer_device Fixture.obliging Sample.v3 []
              (SInt 300) (SStr "node02") 0 eq_refl eq_refl eq_refl)
    as (command & ok & Hrun & Hinstr).
  exists command, ok. split; [exact Hrun|]. rewrite Hinstr. vm_compute. reflexivity.
Defined.

Lemma vm_create_needs_pci_key_witness :
  (VM.create Fixture.obliging Fixture.render Sample.v2 None []).1 <> Ok true.
Proof.
  set (run := VM.create Fixture.obliging Fixture.render Sample.v2 None []).
  destruct (vm_create_needs_pci_key Fixture.obliging Fixture.render Sample.v2 None []
              run.1 run.2) as (Hnot & _ & _).
  - vm_compute. reflexivity.
  - vm_compute. reflexivity.
  - exact Hnot.
Defined.


Lemma cluster_create_targets_witness :
  Forall (fun rq => target_of rq = SStr "c1" \/ target_of rq = SStr "node01")
    (requests (Cluster.create Fixture.obliging Fixture.master_key Fixture.bound_method
                 Fixture.c1 []).2).
Proof.
  set (run := Cluster.create Fixture.obliging Fixture.master_key Fixture.bound_method
                Fixture.c1 []).
  pose proof (cluster_create_targets Fixture.obliging Fixture.master_key
                Fixture.bound_method Fixture.c1 [] run.1 run.2 (surjective_pairing _))
    as Hall.
  eapply Forall_impl; [exact Hall|].
  intros [target command|script target params|target]; cbn.
  - case_decide.
    + assert (Hhost : Cluster.attribute Fixture.c1 "host" = Some "node01")
        by (vm_compute; reflexivity).
      rewrite Hhost. cbn. intros [= <-]. right. reflexivity.
    + intros ->. left. reflexivity.
  - intros ->. left. reflexivity.
  - intros [].
Defined.

Lemma create_command_flags_are_optional_witness :
  Reservation.create_command Sample.maintenance
    = [ "sudo"; "scontrol"; "create"; "reservation"; "ReservationName=maintenance";
        "StartTime=now"; "Duration=UNLIMITED"; "Nodes=caloba[10-12]"; "Users=user1,user2";
        "Flags=MAINT" ].
Proof.
  rewrite <- (take_drop 9 (Reservation.create_command Sample.maintenance)).
  destruct (create_command_flags_are_optional Sample.maintenance) as (Hfixed & Hflags & _).
  rewrite Hfixed, (Hflags "MAINT" eq_refl); [reflexivity | discriminate].
Defined.

Lemma main_runs_at_most_one_command_witness :
  Reservation.execs
    (Reservation.main Sample.subprocess_run "usage"
       (Reservation.Parsed Sample.maintenance)).2
    = [Reservation.create_command Sample.maintenance] /\
  Reservation.main Sample.subprocess_run "usage"
    (Reservation.SystemExit 2 Reservation.Stderr "error: the following arguments are required")
    = (Reservation.Exited 2,
       [Reservation.Write Reservation.Stderr "error: the following arguments are required"]).
Proof.
  split.
  - destruct (main_runs_at_most_one_command Sample.subprocess_run "usage"
                (Reservation.Parsed Sample.maintenance)) as (_ & Hparsed & _).
    destruct (Hparsed Sample.maintenance eq_refl) as (Hcreate & _).
    apply Hcreate. reflexivity.
  - destruct (main_runs_at_most_one_command Sample.subprocess_run "usage"
                (Reservation.SystemExit 2 Reservation.Stderr
                   "error: the following arguments are required")) as (Hexit & _).
    apply Hexit. reflexivity.
Defined.
